(** * Battery dashboard: the ingestion pipeline of [app.py]

    A shallow embedding of the data pipeline at the top of [src/app.py]
    (timestamp normalisation, numeric coercion, per-file impedance
    summary, partitioning and ranking, cleaning filter), and the
    properties of it that the specification states.

    Conventions of the embedding.
    - A Python [str] is a [string] whose characters are code points
      below 256 (Latin-1).
    - A Python [float] is an IEEE-754 binary64 value, a [spec_float] of
      the Standard Library with [prec = 53] and [emax = 1024]; all
      arithmetic rounds to nearest, ties to even.
    - A Python [int] is a [Z].
    - A call that can raise returns an [outcome]: [Return v] or
      [Raise e]. *)

From Stdlib Require Import ZArith List Bool Lia.
From Stdlib Require Import Strings.Ascii Strings.String.
From Stdlib Require Import Floats.SpecFloat.
From Stdlib Require Import Sorting.Permutation Sorting.Sorted.
Import ListNotations.

Local Open Scope string_scope.
Local Open Scope Z_scope.

(* ===================================================================== *)
(** * Exceptions and outcomes *)
(* ===================================================================== *)

(** The exception classes the pipeline can meet. *)
Inductive exn : Type :=
| ValueError
| OverflowError
| TypeError
| AttributeError
| OSError
| ParserError.

Inductive outcome (A : Type) : Type :=
| Return (a : A)
| Raise (e : exn).

Arguments Return {A} a.
Arguments Raise {A} e.

Definition bind {A B : Type} (c : outcome A) (k : A -> outcome B) : outcome B :=
  match c with
  | Return a => k a
  | Raise e => Raise e
  end.

Declare Scope outcome_scope.
Delimit Scope outcome_scope with outcome.
Notation "x <- c ;; k" := (bind c (fun x => k))
  (at level 61, c at next level, right associativity) : outcome_scope.
Local Open Scope outcome_scope.

(** [for x in xs: ys.append(f x)], stopping at the first exception. *)
Fixpoint mapM {A B : Type} (f : A -> outcome B) (xs : list A) : outcome (list B) :=
  match xs with
  | [] => Return []
  | x :: xs' =>
      y <- f x ;;
      ys <- mapM f xs' ;;
      Return (y :: ys)
  end.

(** [try: c except <classes>: h], where [caught e] tells whether the
    class of [e] is one of those listed. *)
Definition try_except {A : Type} (c : outcome A) (caught : exn -> bool)
    (h : exn -> outcome A) : outcome A :=
  match c with
  | Return a => Return a
  | Raise e => if caught e then h e else Raise e
  end.

(** [except ValueError] and [except Exception]. *)
Definition is_ValueError (e : exn) : bool :=
  match e with ValueError => true | _ => false end.

Definition is_Exception (e : exn) : bool := true.

Definition raises {A : Type} (c : outcome A) : Prop :=
  exists e, c = Raise e.

(* ===================================================================== *)
(** * Strings: [str.strip], [str.split] *)
(* ===================================================================== *)

Module Str.

(** [str.isspace] on one character, for code points below 256:
    TAB..CR, FS..US, SPACE, NEL (0x85) and NBSP (0xA0). *)
Definition isspace (c : ascii) : bool :=
  let n := Z.of_nat (nat_of_ascii c) in
  ((9 <=? n) && (n <=? 13)) || ((28 <=? n) && (n <=? 32))
  || (n =? 133) || (n =? 160).

Fixpoint mem (c : ascii) (cs : string) : bool :=
  match cs with
  | EmptyString => false
  | String d cs' => Ascii.eqb c d || mem c cs'
  end.

Fixpoint lstrip_by (p : ascii -> bool) (s : string) : string :=
  match s with
  | EmptyString => EmptyString
  | String c s' => if p c then lstrip_by p s' else s
  end.

Fixpoint rstrip_by (p : ascii -> bool) (s : string) : string :=
  match s with
  | EmptyString => EmptyString
  | String c s' =>
      match rstrip_by p s' with
      | EmptyString => if p c then EmptyString else String c EmptyString
      | r => String c r
      end
  end.

Definition strip_by (p : ascii -> bool) (s : string) : string :=
  rstrip_by p (lstrip_by p s).

(** [s.strip()] *)
Definition strip (s : string) : string := strip_by isspace s.

(** [s.strip(chars)] *)
Definition strip_chars (chars : string) (s : string) : string :=
  strip_by (fun c => mem c chars) s.

(** [s.split()]: maximal runs of non-whitespace characters.
    [tok] is the token being read, [s] what is left of the string. *)
Fixpoint split_from (tok : string) (s : string) : list string :=
  match s with
  | EmptyString =>
      match tok with EmptyString => [] | _ => [tok] end
  | String c s' =>
      if isspace c then
        match tok with
        | EmptyString => split_from EmptyString s'
        | _ => tok :: split_from EmptyString s'
        end
      else split_from (tok ++ String c EmptyString) s'
  end.

Definition split (s : string) : list string := split_from EmptyString s.

(** No character of [s] is white space. *)
Fixpoint no_space (s : string) : bool :=
  match s with
  | EmptyString => true
  | String c s' => negb (isspace c) && no_space s'
  end.

End Str.

(* ===================================================================== *)
(** * Floats: binary64 *)
(* ===================================================================== *)

Module F64.

Definition prec : Z := 53.
Definition emax : Z := 1024.

Definition float : Type := spec_float.

Definition nan : float := S754_nan.
Definition zero : float := S754_zero false.

Definition add : float -> float -> float := SFadd prec emax.
Definition sub : float -> float -> float := SFsub prec emax.
Definition mul : float -> float -> float := SFmul prec emax.
Definition div : float -> float -> float := SFdiv prec emax.
Definition ltb : float -> float -> bool := SFltb.
Definition leb : float -> float -> bool := SFleb.

Definition is_nan (x : float) : bool :=
  match x with S754_nan => true | _ => false end.

(** The binary64 value nearest to the integer [z] (ties to even);
    an infinity when [z] is out of range. *)
Definition of_Z (z : Z) : float := binary_normalize prec emax z 0 false.

(** The binary64 value nearest to [m / d], for [m >= 0], [d > 0]
    with sign [s] ([true] is negative). *)
Definition of_quotient (s : bool) (m d : Z) : float :=
  let '(q, e, l) := SFdiv_core_binary prec emax m 0 d 0 in
  binary_round_aux prec emax s q e l.

(** The binary64 value nearest to [(-1)^s * m * 10^e], for [m >= 0]:
    what a correctly rounded decimal-to-binary conversion returns. *)
Definition of_decimal (s : bool) (m e : Z) : float :=
  match m with
  | Z0 => S754_zero s
  | Zneg _ => S754_nan
  | Zpos _ =>
      match e with
      | Zneg p => of_quotient s m (Z.pow 10 (Zpos p))
      | _ => binary_normalize prec emax (if s then - (m * Z.pow 10 e) else m * Z.pow 10 e) 0 false
      end
  end.

(** |x| truncated to an integer, for finite [x = m * 2^e]. *)
Definition trunc_abs (m : positive) (e : Z) : Z :=
  match e with
  | Zneg p => Z.shiftr (Zpos m) (Zpos p)
  | _ => Z.shiftl (Zpos m) e
  end.

(** |x| rounded to the nearest integer, ties to even. *)
Definition round_abs (m : positive) (e : Z) : Z :=
  match e with
  | Zneg p =>
      let q := Z.shiftr (Zpos m) (Zpos p) in
      let r := Z.land (Zpos m) (Z.ones (Zpos p)) in
      let half := Z.shiftl 1 (Zpos p - 1) in
      match Z.compare r half with
      | Lt => q
      | Gt => q + 1
      | Eq => if Z.even q then q else q + 1
      end
  | _ => Z.shiftl (Zpos m) e
  end.

Definition signed (s : bool) (z : Z) : Z := if s then - z else z.

(** [int(x)] for a float [x]: truncation towards zero. *)
Definition to_int (x : float) : outcome Z :=
  match x with
  | S754_nan => Raise ValueError
  | S754_infinity _ => Raise OverflowError
  | S754_zero _ => Return 0
  | S754_finite s m e => Return (signed s (trunc_abs m e))
  end.

(** [round(x)] for a float [x], no [ndigits]: an [int], half to even. *)
Definition round (x : float) : outcome Z :=
  match x with
  | S754_nan => Raise ValueError
  | S754_infinity _ => Raise OverflowError
  | S754_zero _ => Return 0
  | S754_finite s m e => Return (signed s (round_abs m e))
  end.

(** [float(z)] for an [int] [z]. *)
Definition of_int (z : Z) : outcome float :=
  match of_Z z with
  | S754_infinity _ => Raise OverflowError
  | f => Return f
  end.

(** [x - z] and [x * z] for a float [x] and an [int] [z]: the [int] is
    converted first. *)
Definition sub_int (x : float) (z : Z) : outcome float :=
  y <- of_int z ;; Return (sub x y).

Definition mul_int (x : float) (z : Z) : outcome float :=
  y <- of_int z ;; Return (mul x y).

(** The order between the value of [x] and the integer [z], computed
    exactly on integers; [None] for NaN, which is not ordered. *)
Definition compare_int (x : float) (z : Z) : option comparison :=
  match x with
  | S754_nan => None
  | S754_infinity s => Some (if s then Lt else Gt)
  | S754_zero _ => Some (0 ?= z)
  | S754_finite s m e =>
      Some match e with
           | Zneg p => signed s (Zpos m) ?= z * 2 ^ Zpos p
           | _ => signed s (Zpos m) * 2 ^ e ?= z
           end
  end.

(** [x] is a binary64 value in its one canonical form. *)
Definition valid (x : float) : Prop := valid_binary prec emax x = true.

End F64.

(* ===================================================================== *)
(** * Number literals: [float(str)] and [complex(str)] *)
(* ===================================================================== *)

Module Num.

Definition code (c : ascii) : Z := Z.of_nat (nat_of_ascii c).

Definition is_digit (c : ascii) : bool := (48 <=? code c) && (code c <=? 57).
Definition digit_val (c : ascii) : Z := code c - 48.

(** C's [isspace] in the C locale ([Py_ISSPACE]). *)
Definition c_isspace (c : ascii) : bool :=
  ((9 <=? code c) && (code c <=? 13)) || (code c =? 32).

(** [Py_TOLOWER] *)
Definition to_lower (c : ascii) : ascii :=
  if (65 <=? code c) && (code c <=? 90)
  then ascii_of_nat (nat_of_ascii c + 32) else c.

(** A maximal run of decimal digits: the value read so far, the number of
    digits read so far, and the result with the remainder of the string. *)
Fixpoint read_digits (acc n : Z) (s : string) : Z * Z * string :=
  match s with
  | String c s' =>
      if is_digit c then read_digits (10 * acc + digit_val c) (n + 1) s'
      else (acc, n, s)
  | EmptyString => (acc, n, s)
  end.

(** An optional sign: [true] for a minus. *)
Definition read_sign (s : string) : bool * string :=
  match s with
  | String "-"%char s' => (true, s')
  | String "+"%char s' => (false, s')
  | _ => (false, s)
  end.

(** An optional exponent part [e[+-]digits]; nothing is consumed when no
    digit follows. The decimal exponent [e10] is adjusted. *)
Definition read_exponent (e10 : Z) (s : string) : Z * string :=
  match s with
  | String c s1 =>
      if Ascii.eqb (to_lower c) "e"%char then
        let '(neg, s2) := read_sign s1 in
        let '(x, nx, s3) := read_digits 0 0 s2 in
        if nx =? 0 then (e10, s) else ((if neg then e10 - x else e10 + x), s3)
      else (e10, s)
  | EmptyString => (e10, s)
  end.

(** An unsigned decimal literal [digits[.digits][exponent]] or
    [.digits[exponent]]: the mantissa, the decimal exponent and the
    remainder; [None] when there is no digit. *)
Definition read_decimal (s : string) : option (Z * Z * string) :=
  let '(i, ni, s1) := read_digits 0 0 s in
  match s1 with
  | String "."%char s2 =>
      let '(m, nf, s3) := read_digits i 0 s2 in
      if ni + nf =? 0 then None
      else let '(e10, s4) := read_exponent (- nf) s3 in Some (m, e10, s4)
  | _ =>
      if ni =? 0 then None
      else let '(e10, s4) := read_exponent 0 s1 in Some (i, e10, s4)
  end.

(** [case_insensitive_match]: [t] (lower case) is a prefix of [s] up to
    case; the remainder of [s]. *)
Fixpoint match_word (t s : string) : option string :=
  match t with
  | EmptyString => Some s
  | String d t' =>
      match s with
      | String c s' => if Ascii.eqb (to_lower c) d then match_word t' s' else None
      | EmptyString => None
      end
  end.

(** [_Py_parse_inf_or_nan] *)
Definition parse_inf_or_nan (s : string) : option (F64.float * string) :=
  let '(neg, s1) := read_sign s in
  match match_word "inf" s1 with
  | Some s2 =>
      match match_word "inity" s2 with
      | Some s3 => Some (S754_infinity neg, s3)
      | None => Some (S754_infinity neg, s2)
      end
  | None =>
      match match_word "nan" s1 with
      | Some s2 => Some (S754_nan, s2)
      | None => None
      end
  end.

(** [PyOS_string_to_double(s, &end, NULL)]: the longest prefix of [s]
    that is a number, correctly rounded, with the remainder of [s];
    [None] when no prefix is a number. *)
Definition strtod (s : string) : option (F64.float * string) :=
  let '(neg, s1) := read_sign s in
  match read_decimal s1 with
  | Some (m, e10, rest) => Some (F64.of_decimal neg m e10, rest)
  | None => parse_inf_or_nan s
  end.

(** [_PyUnicode_TransformDecimalAndSpaceToASCII]: an ASCII string is
    returned as it is; otherwise white space above 126 becomes a blank
    and the copy stops with a question mark at the first other
    character above 126 (no code point in 127..255 is a decimal digit). *)
Definition is_ascii (s : string) : bool :=
  forallb (fun c => code c <? 128) (list_ascii_of_string s).

Fixpoint transform_chars (s : string) : string :=
  match s with
  | EmptyString => EmptyString
  | String c s' =>
      if code c <? 127 then String c (transform_chars s')
      else if Str.isspace c then String " "%char (transform_chars s')
      else "?"
  end.

Definition transform (s : string) : string :=
  if is_ascii s then s else transform_chars s.

(** The underscore pass of [_Py_string_to_number_with_underscores]:
    an underscore must stand between two digits. [prev] is the previous
    character of the original string. *)
Fixpoint drop_underscores (prev : ascii) (s : string) : option string :=
  match s with
  | EmptyString => if Ascii.eqb prev "_"%char then None else Some EmptyString
  | String c s' =>
      if Ascii.eqb c "_"%char then
        if is_digit prev then drop_underscores c s' else None
      else
        if Ascii.eqb prev "_"%char && negb (is_digit c) then None
        else option_map (String c) (drop_underscores c s')
  end.

Definition with_underscores {A : Type} (inner : string -> outcome A)
    (s : string) : outcome A :=
  if Str.mem "_"%char s then
    match drop_underscores Ascii.zero s with
    | Some dup => inner dup
    | None => Raise ValueError
    end
  else inner s.

(** [float_from_string_inner]: the whole string must be consumed. *)
Definition float_inner (s : string) : outcome F64.float :=
  match strtod s with
  | Some (x, EmptyString) => Return x
  | _ => Raise ValueError
  end.

(** [float(s)] for a [str] [s]. *)
Definition py_float (s : string) : outcome F64.float :=
  with_underscores float_inner (Str.strip_by c_isspace (transform s)).

(** ** [complex(str)] *)

Definition is_j (c : ascii) : bool := Ascii.eqb (to_lower c) "j"%char.
Definition is_sign (c : ascii) : bool := Ascii.eqb c "+"%char || Ascii.eqb c "-"%char.
Definition unit_of_sign (c : ascii) : F64.float :=
  if Ascii.eqb c "+"%char then F64.of_Z 1 else F64.of_Z (-1).

(** The end of [complex_from_string_inner]: trailing white space, the
    closing bracket when one was opened, and the end of the string. *)
Definition complex_tail (got_bracket : bool) (x y : F64.float) (s : string)
    : option (F64.float * F64.float) :=
  let s1 := Str.lstrip_by c_isspace s in
  if got_bracket then
    match s1 with
    | String ")"%char s2 =>
        match Str.lstrip_by c_isspace s2 with
        | EmptyString => Some (x, y)
        | _ => None
        end
    | _ => None
    end
  else
    match s1 with
    | EmptyString => Some (x, y)
    | _ => None
    end.

Definition expect_j (got_bracket : bool) (x y : F64.float) (s : string)
    : option (F64.float * F64.float) :=
  match s with
  | String c s' => if is_j c then complex_tail got_bracket x y s' else None
  | EmptyString => None
  end.

(** The parse of [complex_from_string_inner]; [None] is its
    [parse_error]. *)
Definition complex_parse (s0 : string) : option (F64.float * F64.float) :=
  let s1 := Str.lstrip_by c_isspace s0 in
  let '(got_bracket, s) :=
    match s1 with
    | String "("%char s2 => (true, Str.lstrip_by c_isspace s2)
    | _ => (false, s1)
    end in
  match strtod s with
  | Some (z, r) =>
      match r with
      | String c r' =>
          if is_sign c then
            match strtod r with
            | Some (y, r2) => expect_j got_bracket z y r2
            | None => expect_j got_bracket z (unit_of_sign c) r'
            end
          else if is_j c then complex_tail got_bracket F64.zero z r'
          else complex_tail got_bracket z F64.zero r
      | EmptyString => complex_tail got_bracket z F64.zero r
      end
  | None =>
      match s with
      | String c r' =>
          if is_sign c then expect_j got_bracket F64.zero (unit_of_sign c) r'
          else expect_j got_bracket F64.zero (F64.of_Z 1) s
      | EmptyString => None
      end
  end.

(** [complex_from_string_inner] *)
Definition complex_inner (s0 : string) : outcome (F64.float * F64.float) :=
  match complex_parse s0 with
  | Some xy => Return xy
  | None => Raise ValueError
  end.

(** [complex(s)] for a [str] [s]: the real and the imaginary part. *)
Definition py_complex (s : string) : outcome (F64.float * F64.float) :=
  with_underscores complex_inner (transform s).

End Num.

(* ===================================================================== *)
(** * Timestamp Normalizer: [parse_matlab_time] *)
(* ===================================================================== *)

(** The fields of a [pd.Timestamp] built from keyword components. *)
Record Timestamp : Type := mkTimestamp {
  year : Z;
  month : Z;
  day : Z;
  hour : Z;
  minute : Z;
  second : Z;
  microsecond : Z
}.

Definition is_leap (y : Z) : bool :=
  ((y mod 4 =? 0) && negb (y mod 100 =? 0)) || (y mod 400 =? 0).

Definition days_in_month (y m : Z) : Z :=
  match m with
  | 1 | 3 | 5 | 7 | 8 | 10 | 12 => 31
  | 4 | 6 | 9 | 11 => 30
  | 2 => if is_leap y then 29 else 28
  | _ => 0
  end.

Definition between (lo x hi : Z) : bool := (lo <=? x) && (x <=? hi).

(** The calendar check of the constructor: years 1..9999, a day that
    exists in its month, a time of day, microseconds below a million. *)
Definition valid_fields (y mo d h mi s us : Z) : bool :=
  between 1 y 9999 && between 1 mo 12 && between 1 d (days_in_month y mo)
  && between 0 h 23 && between 0 mi 59 && between 0 s 59
  && between 0 us 999999.

(** The arguments are received as C [int]s. *)
Definition c_int (z : Z) : bool := (- 2 ^ 31 <=? z) && (z <? 2 ^ 31).

(** [pd.Timestamp(year=.., month=.., day=.., hour=.., minute=..,
    second=.., microsecond=..)]: the keyword form builds a [datetime]
    from the seven integers, which checks them and raises [ValueError]
    for a field out of range ([OverflowError] for one that is no C
    [int]). Every valid [datetime] is representable (pandas 2). *)
Definition Timestamp_new (y mo d h mi s us : Z) : outcome Timestamp :=
  if negb (forallb c_int [y; mo; d; h; mi; s; us]) then Raise OverflowError
  else if valid_fields y mo d h mi s us
       then Return (mkTimestamp y mo d h mi s us)
       else Raise ValueError.

(** [pd.NaT], the missing timestamp. *)
Definition NaT : option Timestamp := None.

(** Lines 12-13: the tokens of the input. *)
Definition tokens (str_time : string) : list string :=
  let str_time := Str.strip_chars "[]" (Str.strip str_time) in
  Str.split str_time.

(** [app.py], lines 11-21. *)
Definition parse_matlab_time (str_time : string) : outcome (option Timestamp) :=
  let parts := tokens str_time in
  if negb (Nat.eqb (List.length parts) 6) then Return NaT
  else
    arr <- mapM Num.py_float parts ;;
    match arr with
    | [year; month; day; hour; minute; sec] =>
        sec_int <- F64.to_int sec ;;
        frac <- F64.sub_int sec sec_int ;;
        scaled <- F64.mul_int frac 1000000 ;;
        microseconds <- F64.round scaled ;;
        y <- F64.to_int year ;;
        mo <- F64.to_int month ;;
        d <- F64.to_int day ;;
        h <- F64.to_int hour ;;
        mi <- F64.to_int minute ;;
        ts <- Timestamp_new y mo d h mi sec_int microseconds ;;
        Return (Some ts)
    | _ => Raise ValueError
    end.

(* ===================================================================== *)
(** * Values *)
(* ===================================================================== *)

(** A cell of a table loaded by [pd.read_csv]: a float (an empty cell is
    NaN), an integer, a boolean or a string. *)
Inductive cell : Type :=
| CFloat (x : F64.float)
| CInt (z : Z)
| CBool (b : bool)
| CStr (s : string).

(** A Python value handed to the Numeric Coercer. [PObject] stands for a
    scalar of any other type. *)
Inductive pyval : Type :=
| PNone
| PFloat (x : F64.float)
| PInt (z : Z)
| PBool (b : bool)
| PStr (s : string)
| PComplex (re im : F64.float)
| PObject.

Definition pyval_of_cell (c : cell) : pyval :=
  match c with
  | CFloat x => PFloat x
  | CInt z => PInt z
  | CBool b => PBool b
  | CStr s => PStr s
  end.

(** [pd.isnull(x)] on a scalar. *)
Definition pd_isnull (x : pyval) : bool :=
  match x with
  | PNone => true
  | PFloat f => F64.is_nan f
  | PComplex re im => F64.is_nan re || F64.is_nan im
  | _ => false
  end.

(** [np.nan] *)
Definition np_nan : pyval := PFloat F64.nan.

(* ===================================================================== *)
(** * Numeric Coercer: [to_complex_or_float] *)
(* ===================================================================== *)

(** [complex(x)] for a number [x]. *)
Definition complex_of_number (x : pyval) : outcome pyval :=
  match x with
  | PFloat f => Return (PComplex f F64.zero)
  | PInt z => f <- F64.of_int z ;; Return (PComplex f F64.zero)
  | PBool b => Return (PComplex (F64.of_Z (if b then 1 else 0)) F64.zero)
  | _ => Raise TypeError
  end.

(** [isinstance(x, (float, int))]; [bool] is a subclass of [int]. *)
Definition is_float_or_int (x : pyval) : bool :=
  match x with
  | PFloat _ | PInt _ | PBool _ => true
  | _ => false
  end.

(** [app.py], lines 44-57. *)
Definition to_complex_or_float (x : pyval) : outcome pyval :=
  if pd_isnull x then Return np_nan
  else if is_float_or_int x then complex_of_number x
  else
    match x with
    | PStr s =>
        let x := Str.strip_chars "()" (Str.strip s) in
        match x with
        | EmptyString => Return np_nan
        | _ =>
            try_except
              (c <- Num.py_complex x ;; Return (PComplex (fst c) (snd c)))
              is_ValueError
              (fun _ => Return np_nan)
        end
    | _ => Return np_nan
    end.

(** [lambda c: c.real if isinstance(c, complex) else c], line 69. *)
Definition real_part (c : pyval) : pyval :=
  match c with
  | PComplex re _ => PFloat re
  | _ => c
  end.

(* ===================================================================== *)
(** * Median of a numeric column *)
(* ===================================================================== *)

(** The values in ascending order. Floats that compare equal are one
    value, but for the sign of zero: zeros of either sign stay here in
    the order of the column, where numpy's selection may take them in
    another, so that of a median that is zero the sign is not settled
    by this definition. *)
Fixpoint insert_float (x : F64.float) (l : list F64.float) : list F64.float :=
  match l with
  | [] => [x]
  | y :: l' => if F64.leb x y then x :: l else y :: insert_float x l'
  end.

Definition sort_floats (l : list F64.float) : list F64.float :=
  fold_right insert_float [] l.

(** The median of the values that are not NaN: the middle one, or the
    mean of the two middle ones; NaN when there is none. *)
Definition nanmedian (l : list F64.float) : F64.float :=
  let xs := sort_floats (filter (fun x => negb (F64.is_nan x)) l) in
  let n := List.length xs in
  match n with
  | O => F64.nan
  | _ =>
      if Nat.even n
      then F64.div (F64.add (nth (n / 2 - 1) xs F64.nan) (nth (n / 2) xs F64.nan))
                   (F64.of_Z 2)
      else nth (n / 2) xs F64.nan
  end.

(** The elements of a column as floats, for a numeric reduction. *)
Definition as_float (v : pyval) : outcome F64.float :=
  match v with
  | PFloat x => Return x
  | PInt z => F64.of_int z
  | PBool b => Return (F64.of_Z (if b then 1 else 0))
  | _ => Raise TypeError
  end.

(** [Series.median()], NaN skipped. *)
Definition Series_median (col : list pyval) : outcome F64.float :=
  xs <- mapM as_float col ;;
  Return (nanmedian xs).

(* ===================================================================== *)
(** * Impedance File Reader: [get_rectified_impedance] *)
(* ===================================================================== *)

(** What a path leads to: a file that [pd.read_csv] loads as a table of
    named columns, or something for which [pd.read_csv] raises. *)
Inductive file : Type :=
| Table (columns : list (string * list cell))
| Unreadable (e : exn).

(** The file system: [None] where nothing exists. *)
Definition filesystem : Type := string -> option file.

Definition os_path_exists (fs : filesystem) (path : string) : bool :=
  match fs path with Some _ => true | None => false end.

Definition read_csv (fs : filesystem) (path : string)
    : outcome (list (string * list cell)) :=
  match fs path with
  | Some (Table columns) => Return columns
  | Some (Unreadable e) => Raise e
  | None => Raise OSError
  end.

(** [df[name]], for a [name] that is [in df.columns]. *)
Fixpoint column (name : string) (df : list (string * list cell)) : option (list cell) :=
  match df with
  | [] => None
  | (n, col) :: df' => if String.eqb n name then Some col else column name df'
  end.

(** [app.py], lines 60-75. The message printed by the handler is not
    part of the result. *)
Definition get_rectified_impedance (fs : filesystem) (file_path : string)
    : outcome F64.float :=
  if negb (os_path_exists fs file_path) then Return F64.nan
  else
    try_except
      (df <- read_csv fs file_path ;;
       match column "Rectified_Impedance" df with
       | Some col =>
           coerced <- mapM (fun c => to_complex_or_float (pyval_of_cell c)) col ;;
           let real_values := map real_part coerced in
           Series_median real_values
       | None => Return F64.nan
       end)
      is_Exception
      (fun _ => Return F64.nan).

(* ===================================================================== *)
(** * The metadata table *)
(* ===================================================================== *)

(** A row of [metadata.csv] as loaded (line 8). *)
Record raw_row : Type := mkRaw {
  raw_battery_id : cell;
  raw_type : cell;
  raw_start_time : cell;
  raw_Re : cell;
  raw_Rct : cell;
  raw_Capacity : cell;
  raw_filename : cell
}.

(** A row of [metadata] after lines 24-29: [start_time] is a timestamp or
    [NaT], and [Re], [Rct], [Capacity] are numbers or NaN. *)
Record row : Type := mkRow {
  battery_id : cell;
  type : cell;
  start_time : option Timestamp;
  Re : F64.float;
  Rct : F64.float;
  Capacity : F64.float;
  filename : cell
}.

(** [Series.apply(parse_matlab_time)] on one cell: a cell that is no
    string has no [strip]. *)
Definition apply_parse_matlab_time (c : cell) : outcome (option Timestamp) :=
  match c with
  | CStr s => parse_matlab_time s
  | _ => Raise AttributeError
  end.

(** The number parser of [pd.to_numeric] on a string: a decimal literal
    between optional blanks, taken correctly rounded, or else one of the
    words [inf] and [infinity], signed or not and in any case, that is
    the whole string. No blank around a word, no NaN word, no
    underscores, no brackets, no complex literals. *)
Definition floatify (s : string) : option F64.float :=
  let '(neg, digits) := Num.read_sign (Str.strip_by Num.c_isspace s) in
  match Num.read_decimal digits with
  | Some (m, e10, EmptyString) => Some (F64.of_decimal neg m e10)
  | Some _ => None
  | None =>
      match Num.parse_inf_or_nan s with
      | Some (S754_infinity sign, EmptyString) => Some (S754_infinity sign)
      | _ => None
      end
  end.

(** [pd.to_numeric(col, errors='coerce')] on one cell (lines 27-29):
    what does not parse as a number becomes NaN. *)
Definition to_numeric_coerce (c : cell) : F64.float :=
  match c with
  | CFloat x => x
  | CInt z => F64.of_Z z
  | CBool b => F64.of_Z (if b then 1 else 0)
  | CStr s =>
      match floatify s with
      | Some x => x
      | None => F64.nan
      end
  end.

(** Lines 24 and 27-29 on one row. The sort of line 25 stands between
    them in the source; it reads [start_time] only and [pd.to_numeric]
    with [errors='coerce'] cannot raise, so the order is immaterial. *)
Definition normalize_row (r : raw_row) : outcome row :=
  t <- apply_parse_matlab_time (raw_start_time r) ;;
  Return {| battery_id := raw_battery_id r;
            type := raw_type r;
            start_time := t;
            Re := to_numeric_coerce (raw_Re r);
            Rct := to_numeric_coerce (raw_Rct r);
            Capacity := to_numeric_coerce (raw_Capacity r);
            filename := raw_filename r |}.

(** Lines 24 and 27-29 on the table: the first timestamp that raises
    ends the run. *)
Definition normalize (raw : list raw_row) : outcome (list row) :=
  mapM normalize_row raw.

(** ** Chronological order *)

Definition ts_key (t : Timestamp) : list Z :=
  [year t; month t; day t; hour t; minute t; second t; microsecond t].

Fixpoint lex_leb (a b : list Z) : bool :=
  match a, b with
  | [], _ => true
  | _ :: _, [] => false
  | x :: a', y :: b' => (x <? y) || ((x =? y) && lex_leb a' b')
  end.

(** [t1 <= t2]: for valid timestamps the order of the instants is the
    lexicographic order of the fields. *)
Definition ts_leb (t1 t2 : Timestamp) : bool := lex_leb (ts_key t1) (ts_key t2).


Definition has_time (r : row) : bool :=
  match start_time r with Some _ => true | None => false end.

(** The timestamps of the rows that have one, in row order. *)
Definition present_keys (rows : list row) : list Timestamp :=
  flat_map (fun r => match start_time r with Some t => [t] | None => [] end) rows.

(** [l.take(idx)] *)
Definition take {A : Type} (idx : list nat) (l : list A) : list A :=
  flat_map (fun i => match nth_error l i with Some x => [x] | None => [] end) idx.

(** [x.index + 1] after [reset_index(drop=True)]: the ranks 1..n. *)
Definition ranks (n : nat) : list Z := map Z.of_nat (seq 1 n).

(** [is_type name r] is [r['type'] == name]. *)
Definition is_type (name : string) (r : row) : bool :=
  match type r with
  | CStr s => String.eqb s name
  | _ => false
  end.

(** A row of [discharge_data]. *)
Record discharge_row : Type := mkDischarge {
  d_row : row;
  cycle_number : Z
}.

(** A row of [impedance_data] once line 86 has run. *)
Record impedance_row : Type := mkImpedance {
  i_row : row;
  impedance_cycle_number : Z;
  Rectified_Impedance : F64.float
}.

(** [os.path.join(a, b)] on POSIX paths. *)
Definition ends_with_slash (a : string) : bool :=
  match Str.rstrip_by (fun c => negb (Ascii.eqb c "/"%char)) a with
  | EmptyString => false
  | _ => true
  end.

Definition os_path_join (a b : string) : string :=
  match b with
  | String "/"%char _ => b
  | _ =>
      match a with
      | EmptyString => b
      | _ => if ends_with_slash a then a ++ b else a ++ "/" ++ b
      end
  end.

Definition data_base_path : string := "cleaned_dataset/data/".

(** Lines 80-84 for one row: a [filename] that is no string makes
    [os.path.join] raise. *)
Definition rectified_value (fs : filesystem) (r : row) : outcome F64.float :=
  match filename r with
  | CStr fname => get_rectified_impedance fs (os_path_join data_base_path fname)
  | _ => Raise TypeError
  end.

(** ** Cleaning Filter *)

(** [dropna(subset=['Re', 'Rct', 'Rectified_Impedance'])], lines 88-89. *)
Definition all_present (r : impedance_row) : bool :=
  negb (F64.is_nan (Re (i_row r))) && negb (F64.is_nan (Rct (i_row r)))
  && negb (F64.is_nan (Rectified_Impedance r)).

(** [x > 0] and [x < 10] against an integer literal. *)
Definition gt_int (x : F64.float) (z : Z) : bool := F64.ltb (F64.of_Z z) x.
Definition lt_int (x : F64.float) (z : Z) : bool := F64.ltb x (F64.of_Z z).

(** The mask of lines 90-95. *)
Definition in_range (r : impedance_row) : bool :=
  gt_int (Re (i_row r)) 0 && lt_int (Re (i_row r)) 10
  && gt_int (Rct (i_row r)) 0 && lt_int (Rct (i_row r)) 10
  && gt_int (Rectified_Impedance r) 0 && lt_int (Rectified_Impedance r) 10.

(** Lines 88-95. *)
Definition impedance_data_clean (impedance_data : list impedance_row)
    : list impedance_row :=
  filter in_range (filter all_present impedance_data).

(** The condition of the specification on one metric: present, and
    its value strictly between 0 and 10. *)
Definition strictly_within_0_10 (x : F64.float) : Prop :=
  F64.is_nan x = false
  /\ F64.compare_int x 0 = Some Gt
  /\ F64.compare_int x 10 = Some Lt.

Definition valid_metrics (r : impedance_row) : Prop :=
  F64.valid (Re (i_row r)) /\ F64.valid (Rct (i_row r))
  /\ F64.valid (Rectified_Impedance r).

(** ** Chronological order with missing timestamps *)



(** What is known of [argsort]: it returns a permutation of the
    positions, and taking the timestamps in that order sorts them. *)
Definition argsort_spec (argsort : list Timestamp -> list nat) : Prop :=
  (forall ks, Permutation (argsort ks) (seq 0 (List.length ks)))
  /\ (forall ks, StronglySorted (fun a b => ts_leb a b = true) (take (argsort ks) ks)).

(** ** Sorting, partitions and ranks *)

Section Indexer.

(** [argsort ks] is numpy's [argsort(kind='quicksort')] on the array of
    timestamps [ks]: some permutation of the positions that puts the
    timestamps in ascending order. Which one it is among equal
    timestamps is not fixed (the sort is not stable). *)
Variable argsort : list Timestamp -> list nat.

(** [rows.sort_values('start_time')]: the rows with a timestamp in the
    order [argsort] gives, then the rows without, in row order. *)
Definition sort_values (rows : list row) : list row :=
  take (argsort (present_keys rows)) (filter has_time rows)
  ++ filter (fun r => negb (has_time r)) rows.

(** Line 25. *)
Definition metadata (normalized : list row) : list row :=
  sort_values normalized.

(** Lines 32-33 and the sort of lines 35-36, 39-40. *)
Definition partition_sorted (name : string) (normalized : list row) : list row :=
  sort_values (filter (is_type name) (metadata normalized)).

(** The pattern of lines 35-37 and 39-41: sort the partition, number
    its rows from 1. *)
Definition rank_partition (name : string) (normalized : list row) : list (row * Z) :=
  let rows := partition_sorted name normalized in
  combine rows (ranks (List.length rows)).

(** Lines 33, 35-37. *)
Definition discharge_data (normalized : list row) : list discharge_row :=
  map (fun p => mkDischarge (fst p) (snd p)) (rank_partition "discharge" normalized).

(** Lines 32, 39-41: the impedance rows with their ranks. *)
Definition impedance_ranked (normalized : list row) : list (row * Z) :=
  rank_partition "impedance" normalized.

(** Lines 78-86: [impedance_data] with its [Rectified_Impedance] column. *)
Definition impedance_data (fs : filesystem) (normalized : list row)
    : outcome (list impedance_row) :=
  let ranked := impedance_ranked normalized in
  rectified_values <- mapM (fun p => rectified_value fs (fst p)) ranked ;;
  Return (map (fun q => mkImpedance (fst (fst q)) (snd (fst q)) (snd q))
              (combine ranked rectified_values)).

(** Lines 8-96: from the loaded table to the two datasets handed to the
    dashboard, the cleaned impedance rows and the discharge rows. *)
Definition pipeline (fs : filesystem) (raw : list raw_row)
    : outcome (list impedance_row * list discharge_row) :=
  normalized <- normalize raw ;;
  imp <- impedance_data fs normalized ;;
  Return (impedance_data_clean imp, discharge_data normalized).

End Indexer.

(** Position [i] holds a timestamp that is not after the one at [j]. *)
Definition idx_le (ks : list Timestamp) (d : Timestamp) (i j : nat) : Prop :=
  ts_leb (nth i ks d) (nth j ks d) = true.

(** A stable instance of [argsort]: insertion of the positions by
    timestamp. *)
Fixpoint insert_idx (ks : list Timestamp) (d : Timestamp) (i : nat) (l : list nat)
    : list nat :=
  match l with
  | [] => [i]
  | j :: l' =>
      if ts_leb (nth i ks d) (nth j ks d) then i :: l
      else j :: insert_idx ks d i l'
  end.

Definition insertion_argsort (ks : list Timestamp) : list nat :=
  match ks with
  | [] => []
  | d :: _ => fold_right (insert_idx ks d) [] (seq 0 (List.length ks))
  end.

(** ** The coercer with its real-part extraction *)

(** Lines 66-69 on one value: the Numeric Coercer, then the real part. *)
Definition coerce_real (x : pyval) : outcome pyval :=
  c <- to_complex_or_float x ;;
  Return (real_part c).

(** The number that a cell of a measurement file stands for: the real
    part that [coerce_real] gives, NaN in every other case. *)
Definition real_value (c : cell) : F64.float :=
  match coerce_real (pyval_of_cell c) with
  | Return (PFloat x) => x
  | _ => F64.nan
  end.

(** A cell on which the coercer returns. *)
Definition coercible (c : cell) : Prop :=
  exists v, to_complex_or_float (pyval_of_cell c) = Return v.

(** The integers that [pd.read_csv] loads are 64-bit, signed or
    unsigned. *)
Definition cell_in_range (c : cell) : Prop :=
  match c with
  | CInt z => - 2 ^ 64 < z < 2 ^ 64
  | _ => True
  end.

(** Decimal literals, for examples: [m * 10^e] as a float. *)
Definition dec (m e : Z) : F64.float := F64.of_decimal false m e.

(** ** Example files *)

(** A file system with a measurement file whose [Rectified_Impedance]
    column is [1.0, 3.0, 5.0], a file without that column, a file whose
    column holds a complex literal, and the data directory itself, which
    exists but is no table. *)
Definition example_fs : filesystem :=
  fun path =>
    if String.eqb path "cleaned_dataset/data/00001.csv" then
      Some (Table [("Sense_current", [CStr "(820-37j)"; CStr "(821-36j)"; CStr "(822-35j)"]);
                   ("Rectified_Impedance", [CFloat (dec 1 0); CFloat (dec 3 0); CFloat (dec 5 0)])])
    else if String.eqb path "cleaned_dataset/data/00002.csv" then
      Some (Table [("Voltage_measured", [CFloat (dec 42 (-1))])])
    else if String.eqb path "cleaned_dataset/data/00003.csv" then
      Some (Table [("Rectified_Impedance", [CStr "(0.5+0.2j)"])])
    else if String.eqb path "cleaned_dataset/data" then
      Some (Unreadable OSError)
    else None.

(** ** Example rows *)

(** An impedance row with the given metrics and rank. *)
Definition example_impedance_row (re rct ri : F64.float) (n : Z) : impedance_row :=
  {| i_row := {| battery_id := CStr "B0005";
                 type := CStr "impedance";
                 start_time := Some (mkTimestamp 2008 4 2 13 8 17 921000);
                 Re := re;
                 Rct := rct;
                 Capacity := F64.nan;
                 filename := CStr "00001.csv" |};
     impedance_cycle_number := n;
     Rectified_Impedance := ri |}.

(** The test of the Cleaning Filter on one row. *)
Definition kept (r : impedance_row) : bool := all_present r && in_range r.

(** ** An example table *)

Definition example_row (ty : string) (t : option Timestamp) (re rct cap : F64.float)
    (fname : string) : row :=
  {| battery_id := CStr "B0005"; type := CStr ty; start_time := t;
     Re := re; Rct := rct; Capacity := cap; filename := CStr fname |}.

(** Two discharge rows, one charge row and three impedance rows, out of
    chronological order; the measurement file of the second impedance
    row in time, [00404.csv], does not exist in [example_fs]. *)
Definition example_metadata : list row :=
  [ example_row "discharge" (Some (mkTimestamp 2008 4 2 15 25 41 593000))
      F64.nan F64.nan (dec 18565 (-4)) "00010.csv";
    example_row "impedance" (Some (mkTimestamp 2008 4 3 9 0 0 0))
      (dec 56 (-3)) (dec 2 (-1)) F64.nan "00003.csv";
    example_row "charge" (Some (mkTimestamp 2008 4 2 13 0 0 0))
      F64.nan F64.nan F64.nan "00011.csv";
    example_row "impedance" (Some (mkTimestamp 2008 4 2 13 8 17 921000))
      (dec 44 (-3)) (dec 7 (-2)) F64.nan "00001.csv";
    example_row "discharge" (Some (mkTimestamp 2008 4 2 10 0 0 0))
      F64.nan F64.nan (dec 18463 (-4)) "00012.csv";
    example_row "impedance" (Some (mkTimestamp 2008 4 2 20 0 0 0))
      (dec 47 (-3)) (dec 8 (-2)) F64.nan "00404.csv" ].

(* ===================================================================== *)
(** * The dashboard: dropdown and [update_plots] *)
(* ===================================================================== *)

(** ** Figures *)

(** What the callback builds with [plotly.graph_objects]: scatter traces
    collected in figures. An argument that is not given is [None]. *)
Module Go.

(** [go.Scatter(x=.., y=.., mode=.., name=.., yaxis=..)] *)
Record Scatter : Type := mkScatter {
  x : list Z;
  y : list F64.float;
  mode : string;
  name : string;
  yaxis : option string
}.

(** [dict(title=.., overlaying=.., side=..)] *)
Record Axis : Type := mkAxis {
  axis_title : string;
  overlaying : string;
  side : string
}.

Record Layout : Type := mkLayout {
  title : option string;
  xaxis_title : option string;
  yaxis_title : option string;
  yaxis2 : option Axis;
  template : option string
}.

Record Figure : Type := mkFigure {
  data : list Scatter;
  layout : Layout
}.

(** [go.Figure()] *)
Definition empty : Figure :=
  {| data := []; layout := mkLayout None None None None None |}.

(** [fig.add_trace(t)] *)
Definition add_trace (fig : Figure) (t : Scatter) : Figure :=
  {| data := (data fig ++ [t])%list; layout := layout fig |}.

Definition set {A : Type} (new old : option A) : option A :=
  match new with Some _ => new | None => old end.

(** [fig.update_layout(title=.., xaxis_title=.., yaxis_title=..,
    yaxis2=.., template=..)] *)
Definition update_layout (fig : Figure)
    (title' xaxis_title' yaxis_title' : option string) (yaxis2' : option Axis)
    (template' : option string) : Figure :=
  {| data := data fig;
     layout := {| title := set title' (title (layout fig));
                  xaxis_title := set xaxis_title' (xaxis_title (layout fig));
                  yaxis_title := set yaxis_title' (yaxis_title (layout fig));
                  yaxis2 := set yaxis2' (yaxis2 (layout fig));
                  template := set template' (template (layout fig)) |} |}.

End Go.

(** ** The callback *)

(** [r['battery_id'] == b] for a battery id [b] that is a string, as the
    value of the dropdown is when the ids of the table are strings: a cell
    that is no string is not equal to it. *)
Definition has_battery (b : string) (r : row) : bool :=
  match battery_id r with
  | CStr s => String.eqb s b
  | _ => false
  end.

(** Lines 142-203. [imp] is the global [impedance_data], which line 96
    has bound to the cleaned rows, and [dis] the global
    [discharge_data]. *)
Definition update_plots (imp : list impedance_row) (dis : list discharge_row)
    (b : string) : Go.Figure * Go.Figure * Go.Figure :=
  let selected_impedance := filter (fun r => has_battery b (i_row r)) imp in
  let selected_discharge := filter (fun d => has_battery b (d_row d)) dis in
  let fig_re_rct := Go.empty in
  let fig_re_rct :=
    Go.add_trace fig_re_rct
      (Go.mkScatter (map impedance_cycle_number selected_impedance)
                    (map (fun r => Re (i_row r)) selected_impedance)
                    "lines+markers" "Electrolyte Resistance (Re)" None) in
  let fig_re_rct :=
    Go.add_trace fig_re_rct
      (Go.mkScatter (map impedance_cycle_number selected_impedance)
                    (map (fun r => Rct (i_row r)) selected_impedance)
                    "lines+markers" "Charge Transfer Resistance (Rct)" (Some "y2")) in
  let fig_re_rct :=
    Go.update_layout fig_re_rct
      (Some "Re and Rct Over Time") (Some "Impedance Measurement Number")
      (Some "Re (Ohms)") (Some (Go.mkAxis "Rct (Ohms)" "y" "right"))
      (Some "plotly_white") in
  let fig_rectified := Go.empty in
  let fig_rectified :=
    Go.add_trace fig_rectified
      (Go.mkScatter (map impedance_cycle_number selected_impedance)
                    (map Rectified_Impedance selected_impedance)
                    "lines+markers" "Rectified Impedance" None) in
  let fig_rectified :=
    Go.update_layout fig_rectified
      (Some "Rectified Impedance Over Time") (Some "Impedance Measurement Number")
      (Some "Rectified Impedance (Ohms)") None (Some "plotly_white") in
  let fig_capacity := Go.empty in
  let fig_capacity :=
    Go.add_trace fig_capacity
      (Go.mkScatter (map cycle_number selected_discharge)
                    (map (fun d => Capacity (d_row d)) selected_discharge)
                    "lines+markers" "Capacity" None) in
  let fig_capacity :=
    Go.update_layout fig_capacity
      (Some "Capacity Fade Over Discharge Cycles") (Some "Cycle Number")
      (Some "Capacity (Ahr)") None (Some "plotly_white") in
  (fig_re_rct, fig_rectified, fig_capacity).

(** All the traces of the three figures. *)
Definition traces (figs : Go.Figure * Go.Figure * Go.Figure) : list Go.Scatter :=
  (Go.data (fst (fst figs)) ++ Go.data (snd (fst figs)) ++ Go.data (snd figs))%list.

(** ** The dropdown *)

(** Two cells are one value for [Series.unique()]: equal strings, equal
    numbers (a boolean is 0 or 1, an integer and a float are compared
    exactly), or two NaN. *)
Definition cell_same (a b : cell) : bool :=
  let int_of_bool (b : bool) : Z := if b then 1 else 0 in
  let float_int (x : F64.float) (z : Z) : bool :=
    match F64.compare_int x z with Some Eq => true | _ => false end in
  match a, b with
  | CStr s, CStr t => String.eqb s t
  | CStr _, _ | _, CStr _ => false
  | CFloat x, CFloat y => (F64.is_nan x && F64.is_nan y) || SFeqb x y
  | CFloat x, CInt z | CInt z, CFloat x => float_int x z
  | CFloat x, CBool c | CBool c, CFloat x => float_int x (int_of_bool c)
  | CInt z, CInt w => Z.eqb z w
  | CInt z, CBool c | CBool c, CInt z => Z.eqb z (int_of_bool c)
  | CBool c, CBool d => Bool.eqb c d
  end.

(** [Series.unique()]: the values in order of first appearance. [seen]
    holds the values already returned. *)
Fixpoint unique_from (seen : list cell) (l : list cell) : list cell :=
  match l with
  | [] => []
  | c :: l' =>
      if existsb (cell_same c) seen then unique_from seen l'
      else c :: unique_from (c :: seen) l'
  end.

Definition Series_unique (l : list cell) : list cell := unique_from [] l.

(** Lines 111-112: the options of the dropdown, a label and a value
    each. [metadata] is the sorted table of line 25. *)
Definition dropdown_options (metadata : list row) : list (cell * cell) :=
  map (fun b => (b, b)) (Series_unique (map battery_id metadata)).

(** Line 113, [metadata['battery_id'].iloc[0]]: [None] stands for the
    [IndexError] that [iloc[0]] raises on an empty table. *)
Definition dropdown_value (metadata : list row) : option cell :=
  match metadata with
  | [] => None
  | r :: _ => Some (battery_id r)
  end.

(** ** Padding *)

(** Every character of [s] satisfies [p]. *)
Fixpoint all_chars (p : ascii -> bool) (s : string) : bool :=
  match s with
  | EmptyString => true
  | String c s' => p c && all_chars p s'
  end.

(** ** An example table as loaded *)

Definition example_raw_row (b ty t re rct cap fname : cell) : raw_row :=
  {| raw_battery_id := b; raw_type := ty; raw_start_time := t;
     raw_Re := re; raw_Rct := rct; raw_Capacity := cap; raw_filename := fname |}.

(** Two batteries. The charge row has no file name, which does no harm;
    the file of the last impedance row does not exist in [example_fs]. *)
Definition example_raw : list raw_row :=
  [ example_raw_row (CStr "B0006") (CStr "discharge")
      (CStr "[2008. 4. 2. 15. 25. 41.593]")
      (CFloat F64.nan) (CFloat F64.nan) (CFloat (dec 20353 (-4))) (CStr "00010.csv");
    example_raw_row (CStr "B0005") (CStr "impedance")
      (CStr "[2008. 4. 3. 9. 0. 0.]")
      (CFloat (dec 56 (-3))) (CStr "0.2") (CFloat F64.nan) (CStr "00003.csv");
    example_raw_row (CStr "B0005") (CStr "charge")
      (CStr "[2008. 4. 2. 13. 0. 0.]")
      (CFloat F64.nan) (CFloat F64.nan) (CFloat F64.nan) (CFloat F64.nan);
    example_raw_row (CStr "B0006") (CStr "impedance")
      (CStr "[2008. 4. 2. 13. 8. 17.921]")
      (CFloat (dec 44 (-3))) (CFloat (dec 7 (-2))) (CFloat F64.nan) (CStr "00001.csv");
    example_raw_row (CStr "B0005") (CStr "discharge")
      (CStr "[2008. 4. 2. 10. 0. 0.]")
      (CFloat F64.nan) (CFloat F64.nan) (CFloat (dec 18565 (-4))) (CStr "00012.csv");
    example_raw_row (CStr "B0005") (CStr "impedance")
      (CStr "[2008. 4. 2. 20. 0. 0.]")
      (CFloat (dec 47 (-3))) (CStr "(0.08+0j)") (CFloat F64.nan) (CStr "00404.csv") ].

(** ** The exceptions of the normalizer *)

Definition value_or_overflow (e : exn) : Prop :=
  e = ValueError \/ e = OverflowError.

(** ** The example table, run *)

(** The two datasets that the run leaves for [example_raw]. *)
Definition example_result : list impedance_row * list discharge_row :=
  match pipeline insertion_argsort example_fs example_raw with
  | Return res => res
  | Raise _ => ([], [])
  end.

(** ** An unstable sort *)








(** ** A measurement file with a given column *)

(** A file system with one measurement file, whose only column is
    [Rectified_Impedance] with the cells [col]. *)
Definition example_file (col : list cell) : filesystem :=
  fun path =>
    if String.eqb path "cleaned_dataset/data/00007.csv"
    then Some (Table [("Rectified_Impedance", col)])
    else None.

(** ** A table with a series for one battery *)

(** Three impedance rows and three discharge rows, out of chronological
    order; the second of each kind in time belongs to another battery. *)
Definition example_raw_series : list raw_row :=
  [ example_raw_row (CStr "B0005") (CStr "impedance")
      (CStr "[2008. 4. 3. 9. 0. 0.]")
      (CFloat (dec 56 (-3))) (CStr "0.2") (CFloat F64.nan) (CStr "00003.csv");
    example_raw_row (CStr "B0005") (CStr "discharge")
      (CStr "[2008. 4. 2. 10. 0. 0.]")
      (CFloat F64.nan) (CFloat F64.nan) (CFloat (dec 18565 (-4))) (CStr "00012.csv");
    example_raw_row (CStr "B0006") (CStr "impedance")
      (CStr "[2008. 4. 2. 20. 0. 0.]")
      (CFloat (dec 47 (-3))) (CFloat (dec 8 (-2))) (CFloat F64.nan) (CStr "00003.csv");
    example_raw_row (CStr "B0005") (CStr "discharge")
      (CStr "[2008. 4. 4. 11. 30. 0.]")
      (CFloat F64.nan) (CFloat F64.nan) (CFloat (dec 18463 (-4))) (CStr "00014.csv");
    example_raw_row (CStr "B0005") (CStr "impedance")
      (CStr "[2008. 4. 2. 13. 8. 17.921]")
      (CFloat (dec 44 (-3))) (CFloat (dec 7 (-2))) (CFloat F64.nan) (CStr "00001.csv");
    example_raw_row (CStr "B0006") (CStr "discharge")
      (CStr "[2008. 4. 2. 15. 25. 41.593]")
      (CFloat F64.nan) (CFloat F64.nan) (CFloat (dec 20353 (-4))) (CStr "00013.csv") ].

(** The two datasets that the run leaves for [example_raw_series]. *)
Definition example_series : list impedance_row * list discharge_row :=
  match pipeline insertion_argsort example_fs example_raw_series with
  | Return res => res
  | Raise _ => ([], [])
  end.

(** The sorted table of line 25 for [example_raw]. *)
Definition example_table : list row :=
  match normalize example_raw with
  | Return rows => metadata insertion_argsort rows
  | Raise _ => []
  end.

(* ===================================================================== *)
(** * Outcomes *)
(* ===================================================================== *)

Local Open Scope list_scope.

(** Boolean tests on integers, as propositions. *)
Ltac bool_to_Z :=
  repeat match goal with
  | H : (_ && _)%bool = true |- _ => apply andb_prop in H; destruct H
  | H : (_ <=? _) = true |- _ => apply Z.leb_le in H
  | H : (_ <? _) = true |- _ => apply Z.ltb_lt in H
  | H : (_ =? _) = true |- _ => apply Z.eqb_eq in H
  | |- (_ && _)%bool = true => apply andb_true_intro; split
  | |- (_ <=? _) = true => apply Z.leb_le
  | |- (_ <? _) = true => apply Z.ltb_lt
  | |- (_ =? _) = true => apply Z.eqb_eq
  end.

Lemma mapM_length {A B : Type} (f : A -> outcome B) :
  forall xs ys, mapM f xs = Return ys -> List.length ys = List.length xs.
Proof.
  induction xs as [|x xs IH]; intros ys H; simpl in H.
  - injection H as <-. reflexivity.
  - destruct (f x) as [y|e]; simpl in H; [|discriminate].
    destruct (mapM f xs) as [ys'|e]; simpl in H; [|discriminate].
    injection H as <-. simpl. f_equal. apply IH. reflexivity.
Qed.

(** [mapM] raises as soon as one element does. *)
Lemma mapM_raises {A B : Type} (f : A -> outcome B) :
  forall xs x, In x xs -> raises (f x) -> raises (mapM f xs).
Proof.
  induction xs as [|y xs IH]; intros x Hin Hx; [contradiction|].
  simpl. destruct (f y) as [b|e] eqn:Ey; simpl; [|exists e; reflexivity].
  destruct Hin as [->|Hin].
  - destruct Hx as [e He]. congruence.
  - destruct (IH x Hin Hx) as [e ->]. exists e. reflexivity.
Qed.

Lemma mapM_Raise {A B : Type} (f : A -> outcome B) :
  forall xs e, mapM f xs = Raise e -> exists x, In x xs /\ f x = Raise e.
Proof.
  induction xs as [|x xs IH]; intros e H; [discriminate|].
  cbn [mapM] in H. destruct (f x) as [y|e'] eqn:Ex; cbn [bind] in H.
  - destruct (mapM f xs) as [ys|e'] eqn:Exs; cbn [bind] in H; [discriminate|].
    injection H as ->. destruct (IH e eq_refl) as (x' & Hin & Hx').
    exists x'. split; [right; exact Hin|exact Hx'].
  - injection H as ->. exists x. split; [left; reflexivity|exact Ex].
Qed.

(* ===================================================================== *)
(** * Strings and number literals *)
(* ===================================================================== *)

Lemma no_space_app (s t : string) :
  Str.no_space (s ++ t)%string = Str.no_space s && Str.no_space t.
Proof.
  induction s as [|c s IH]; [reflexivity|].
  cbn [String.append Str.no_space]. rewrite IH. apply andb_assoc.
Qed.

(** The tokens of [split] are not empty and hold no white space. *)
Lemma split_from_tokens : forall (s tok : string),
  Str.no_space tok = true ->
  Forall (fun t => t <> EmptyString /\ Str.no_space t = true) (Str.split_from tok s).
Proof.
  induction s as [|c s IH]; intros tok Htok; cbn [Str.split_from].
  - destruct tok; constructor; [|constructor]. split; [discriminate|exact Htok].
  - destruct (Str.isspace c) eqn:E.
    + destruct tok; [apply IH; reflexivity|].
      constructor; [split; [discriminate|exact Htok]|apply IH; reflexivity].
    + apply IH. rewrite no_space_app, Htok. cbn [Str.no_space]. rewrite E. reflexivity.
Qed.

Lemma tokens_no_space (s : string) :
  Forall (fun t => t <> EmptyString /\ Str.no_space t = true) (tokens s).
Proof. apply split_from_tokens. reflexivity. Qed.

(** [float] on some literals: a fraction, an exponent, underscores between
    digits, surrounding blanks, the special words, a range overflow. *)
Example py_float_examples :
  Num.py_float "40.25" = Return (dec 4025 (-2))
  /\ Num.py_float "2.008e+03" = Return (dec 2008 0)
  /\ Num.py_float "1_000.5" = Return (dec 10005 (-1))
  /\ Num.py_float " 12 " = Return (dec 12 0)
  /\ Num.py_float ".5" = Return (dec 5 (-1))
  /\ Num.py_float "5." = Return (dec 5 0)
  /\ Num.py_float "-Infinity" = Return (S754_infinity true)
  /\ Num.py_float "NaN" = Return S754_nan
  /\ Num.py_float "1e400" = Return (S754_infinity false)
  /\ Num.py_float "0.1" = Return (S754_finite false 7205759403792794 (-56)).
Proof. repeat split; vm_compute; reflexivity. Qed.

Example py_float_rejects :
  Num.py_float "abc" = Raise ValueError
  /\ Num.py_float "" = Raise ValueError
  /\ Num.py_float "." = Raise ValueError
  /\ Num.py_float "1e" = Raise ValueError
  /\ Num.py_float "1__0" = Raise ValueError
  /\ Num.py_float "_1" = Raise ValueError
  /\ Num.py_float "1 2" = Raise ValueError
  /\ Num.py_float "(1)" = Raise ValueError
  /\ Num.py_float "0x10" = Raise ValueError.
Proof. repeat split; vm_compute; reflexivity. Qed.

Example py_complex_examples :
  Num.py_complex "0.5+0.2j" = Return (dec 5 (-1), dec 2 (-1))
  /\ Num.py_complex " ( 1e3 ) " = Return (dec 1000 0, F64.zero)
  /\ Num.py_complex "2J" = Return (F64.zero, dec 2 0)
  /\ Num.py_complex "1-j" = Return (dec 1 0, F64.of_Z (-1))
  /\ Num.py_complex "(1+2j" = Raise ValueError
  /\ Num.py_complex "1 + 2j" = Raise ValueError
  /\ Num.py_complex "1+2" = Raise ValueError
  /\ Num.py_complex "" = Raise ValueError.
Proof. repeat split; vm_compute; reflexivity. Qed.

Example tokens_examples :
  tokens "[2015 3 18 9 31 40.25]" = ["2015"; "3"; "18"; "9"; "31"; "40.25"]%string
  /\ tokens "  [2010.  7. 21. 15.  0. 35.093]  " = ["2010."; "7."; "21."; "15."; "0."; "35.093"]%string
  /\ tokens "[2015 3 18]" = ["2015"; "3"; "18"]%string
  /\ tokens "" = []
  /\ tokens "[[ ]]" = [].
Proof. repeat split; vm_compute; reflexivity. Qed.

(* ===================================================================== *)
(** * Timestamp Normalizer *)
(* ===================================================================== *)

Lemma parse_matlab_time_eq (s : string) :
  parse_matlab_time s =
  if negb (Nat.eqb (List.length (tokens s)) 6) then Return NaT
  else
    arr <- mapM Num.py_float (tokens s) ;;
    match arr with
    | [fy; fmo; fd; fh; fmi; sec] =>
        sec_int <- F64.to_int sec ;;
        frac <- F64.sub_int sec sec_int ;;
        scaled <- F64.mul_int frac 1000000 ;;
        microseconds <- F64.round scaled ;;
        y <- F64.to_int fy ;;
        mo <- F64.to_int fmo ;;
        d <- F64.to_int fd ;;
        h <- F64.to_int fh ;;
        mi <- F64.to_int fmi ;;
        ts <- Timestamp_new y mo d h mi sec_int microseconds ;;
        Return (Some ts)
    | _ => Raise ValueError
    end.
Proof. reflexivity. Qed.

(** C9. A string whose token count, after the brackets are stripped and
    it is split on white space, is not 6 is mapped to the missing
    timestamp: the call returns, it does not raise. *)
Theorem parse_matlab_time_token_count (s : string) :
  List.length (tokens s) <> 6%nat -> parse_matlab_time s = Return NaT.
Proof.
  intros H. rewrite parse_matlab_time_eq.
  destruct (Nat.eqb_spec (List.length (tokens s)) 6) as [E|_]; [contradiction|].
  reflexivity.
Qed.

Lemma parse_matlab_time_token_count_example :
  List.length (tokens "[2015 3 18]") <> 6%nat
  /\ parse_matlab_time "[2015 3 18]" = Return NaT.
Proof.
  split.
  - vm_compute. discriminate.
  - apply (parse_matlab_time_token_count "[2015 3 18]").
    vm_compute. discriminate.
Defined.

(** With six tokens the missing timestamp is never the answer: the call
    returns a timestamp or raises. *)
Lemma parse_matlab_time_six_tokens (s : string) :
  List.length (tokens s) = 6%nat ->
  (exists ts, parse_matlab_time s = Return (Some ts)) \/ raises (parse_matlab_time s).
Proof.
  intros H. rewrite parse_matlab_time_eq, H. simpl.
  destruct (mapM Num.py_float (tokens s)) as [arr|e]; simpl;
    [|right; exists e; reflexivity].
  destruct arr as [|fy [|fmo [|fd [|fh [|fmi [|sec [|x arr]]]]]]];
    try (right; exists ValueError; reflexivity).
  repeat match goal with
  | |- context [bind ?c _] =>
      let e := fresh "e" in
      destruct c as [?|e]; simpl; [|right; exists e; reflexivity]
  end.
  left. eexists. reflexivity.
Qed.

(** A token that [float] rejects makes the call raise. *)
Lemma parse_matlab_time_bad_token (s t : string) :
  List.length (tokens s) = 6%nat ->
  In t (tokens s) -> raises (Num.py_float t) ->
  raises (parse_matlab_time s).
Proof.
  intros H Hin Ht. rewrite parse_matlab_time_eq, H. simpl.
  destruct (mapM_raises Num.py_float (tokens s) t Hin Ht) as [e ->].
  exists e. reflexivity.
Qed.

(** C1. The code at two six-token inputs: a sixth token that is no
    number, and a day that the month does not have. Both raise
    [ValueError]; neither yields the missing timestamp. *)
Theorem parse_matlab_time_raises :
  List.length (tokens "[2015 3 18 9 31 abc]") = 6%nat
  /\ parse_matlab_time "[2015 3 18 9 31 abc]" = Raise ValueError
  /\ List.length (tokens "[2015 2 30 9 31 40]") = 6%nat
  /\ parse_matlab_time "[2015 2 30 9 31 40]" = Raise ValueError.
Proof. repeat split; vm_compute; reflexivity. Qed.

(** One timestamp that raises ends the whole run: no dataset is built. *)
Lemma pipeline_aborts
    (argsort : list Timestamp -> list nat) (fs : filesystem)
    (raw : list raw_row) (r : raw_row) :
  In r raw -> raises (apply_parse_matlab_time (raw_start_time r)) ->
  raises (pipeline argsort fs raw).
Proof.
  intros Hin [e He]. unfold pipeline, normalize.
  destruct (mapM_raises normalize_row raw r Hin) as [e' ->].
  - exists e. unfold normalize_row. rewrite He. reflexivity.
  - exists e'. reflexivity.
Qed.

(** ** What [int] and [round] compute *)

(** [int(x)] of a finite [x = m * 2^e] is [m * 2^e] for [e >= 0] and the
    quotient of [m] by [2^-e], towards zero, for [e < 0]. *)
Lemma trunc_abs_spec (m : positive) (e : Z) :
  (0 <= e -> F64.trunc_abs m e = Zpos m * 2 ^ e)
  /\ (e < 0 ->
      F64.trunc_abs m e * 2 ^ (- e) <= Zpos m < (F64.trunc_abs m e + 1) * 2 ^ (- e)).
Proof.
  split; intros He.
  - destruct e as [|p|p]; try lia; unfold F64.trunc_abs;
      rewrite Z.shiftl_mul_pow2 by lia; reflexivity.
  - destruct e as [|p|p]; try lia. unfold F64.trunc_abs.
    rewrite Z.shiftr_div_pow2 by lia.
    change (- Z.neg p) with (Z.pos p).
    assert (Hpow : 0 < 2 ^ Z.pos p) by (apply Z.pow_pos_nonneg; lia).
    pose proof (Z.div_mod (Z.pos m) (2 ^ Z.pos p) ltac:(lia)) as Hdm.
    pose proof (Z.mod_pos_bound (Z.pos m) (2 ^ Z.pos p) Hpow) as Hb.
    nia.
Qed.

(** [round(x)] of a finite [x = m * 2^-p] is an integer nearest to it,
    the even one when two are as near. *)
Lemma round_abs_spec (m p : positive) :
  let q := F64.round_abs m (Zneg p) in
  Z.abs (2 * (q * 2 ^ Zpos p - Zpos m)) <= 2 ^ Zpos p
  /\ (Z.abs (2 * (q * 2 ^ Zpos p - Zpos m)) = 2 ^ Zpos p -> Z.even q = true).
Proof.
  unfold F64.round_abs.
  rewrite Z.shiftr_div_pow2, Z.land_ones, Z.shiftl_mul_pow2 by lia.
  assert (Hpow : 0 < 2 ^ Z.pos p) by (apply Z.pow_pos_nonneg; lia).
  assert (Hhalf : 2 ^ Z.pos p = 2 * 2 ^ (Z.pos p - 1)).
  { rewrite <- Z.pow_succ_r by lia. f_equal. lia. }
  pose proof (Z.div_mod (Z.pos m) (2 ^ Z.pos p) ltac:(lia)) as Hdm.
  pose proof (Z.mod_pos_bound (Z.pos m) (2 ^ Z.pos p) Hpow) as Hb.
  set (q0 := Z.pos m / 2 ^ Z.pos p) in *.
  set (r := Z.pos m mod 2 ^ Z.pos p) in *.
  set (P := 2 ^ Z.pos p) in *.
  set (half := 2 ^ (Z.pos p - 1)) in *.
  rewrite Z.mul_1_l.
  destruct (Z.compare_spec r half) as [E|L|G]; cbv zeta.
  - destruct (Z.even q0) eqn:Ev.
    + split; [|intros _; exact Ev]. nia.
    + split; [nia|]. intros _.
      rewrite Z.even_add, Ev. reflexivity.
  - split; [nia|]. intros Habs. exfalso. nia.
  - split; [nia|]. intros Habs. exfalso. nia.
Qed.

(** ** Well-formed input *)

Lemma of_int_second (z : Z) :
  0 <= z <= 59 -> F64.of_int z = Return (F64.of_Z z).
Proof.
  intros H. destruct z as [|p|p]; [reflexivity| |lia].
  do 6 (try (destruct p as [p|p|]; try lia; try reflexivity)).
Qed.

Lemma valid_fields_c_int (y mo d h mi s us : Z) :
  valid_fields y mo d h mi s us = true ->
  forallb c_int [y; mo; d; h; mi; s; us] = true.
Proof.
  unfold valid_fields, between. intros H. bool_to_Z.
  assert (Hd : days_in_month y mo <= 31).
  { unfold days_in_month.
    repeat match goal with
    | |- context [match ?x with _ => _ end] => destruct x
    end; lia. }
  unfold c_int. cbn [forallb].
  bool_to_Z; try reflexivity; lia.
Qed.

(** C7, amended. Six tokens that [float] accepts, whose truncated
    values and rounded microsecond count are fields the constructor
    accepts, give the timestamp with exactly those fields: year, month,
    day, hour and minute are the truncated tokens, the second is the
    truncated sixth token, and the microseconds are
    [(seconds - whole seconds) * 1,000,000] rounded half to even. *)
Theorem parse_matlab_time_well_formed
    (s : string) (fy fmo fd fh fmi fsec : F64.float) (y mo d h mi whole us : Z) :
  mapM Num.py_float (tokens s) = Return [fy; fmo; fd; fh; fmi; fsec] ->
  F64.to_int fy = Return y ->
  F64.to_int fmo = Return mo ->
  F64.to_int fd = Return d ->
  F64.to_int fh = Return h ->
  F64.to_int fmi = Return mi ->
  F64.to_int fsec = Return whole ->
  F64.round (F64.mul (F64.sub fsec (F64.of_Z whole)) (F64.of_Z 1000000)) = Return us ->
  valid_fields y mo d h mi whole us = true ->
  parse_matlab_time s = Return (Some (mkTimestamp y mo d h mi whole us)).
Proof.
  intros Harr Hy Hmo Hd Hh Hmi Hs Hus Hv.
  rewrite parse_matlab_time_eq.
  rewrite <- (mapM_length _ _ _ Harr).
  cbn [List.length Nat.eqb negb].
  rewrite Harr. cbn [bind].
  rewrite Hs. cbn [bind].
  assert (Hw : 0 <= whole <= 59).
  { pose proof Hv as Hv'. unfold valid_fields, between in Hv'. bool_to_Z. lia. }
  unfold F64.sub_int. rewrite (of_int_second whole Hw). cbn [bind].
  unfold F64.mul_int.
  change (F64.of_int 1000000) with (Return (F64.of_Z 1000000)). cbn [bind].
  rewrite Hus. cbn [bind].
  rewrite Hy, Hmo, Hd, Hh, Hmi. cbn [bind].
  unfold Timestamp_new.
  rewrite (valid_fields_c_int _ _ _ _ _ _ _ Hv), Hv. reflexivity.
Qed.

Lemma parse_matlab_time_well_formed_example :
  parse_matlab_time "[2015 3 18 9 31 40.25]"
  = Return (Some (mkTimestamp 2015 3 18 9 31 40 250000)).
Proof.
  eapply (parse_matlab_time_well_formed "[2015 3 18 9 31 40.25]");
    vm_compute; reflexivity.
Defined.

(** C7 as stated fails. The six tokens below are numbers and name a
    date and a time of day that exist, yet no timestamp is produced: the
    fraction 0.9999999 rounds to 1,000,000 microseconds, which the
    constructor rejects. *)
Lemma parse_matlab_time_microsecond_carry :
  tokens "[2015 3 18 9 31 40.9999999]" = ["2015"; "3"; "18"; "9"; "31"; "40.9999999"]
  /\ (exists arr, mapM Num.py_float (tokens "[2015 3 18 9 31 40.9999999]") = Return arr)
  /\ parse_matlab_time "[2015 3 18 9 31 40.9999999]" = Raise ValueError
  /\ ~ (exists ts, parse_matlab_time "[2015 3 18 9 31 40.9999999]" = Return (Some ts)).
Proof.
  split; [vm_compute; reflexivity|].
  split; [eexists; vm_compute; reflexivity|].
  assert (H : parse_matlab_time "[2015 3 18 9 31 40.9999999]" = Raise ValueError)
    by (vm_compute; reflexivity).
  split; [exact H|].
  intros [ts Hts]. rewrite H in Hts. discriminate.
Qed.

(* ===================================================================== *)
(** * Numeric Coercer *)
(* ===================================================================== *)

Lemma py_complex_exn (s : string) (e : exn) :
  Num.py_complex s = Raise e -> e = ValueError.
Proof.
  unfold Num.py_complex, Num.with_underscores, Num.complex_inner.
  destruct (Str.mem _ _).
  - destruct (Num.drop_underscores _ _); [|congruence].
    destruct (Num.complex_parse _); congruence.
  - destruct (Num.complex_parse _); congruence.
Qed.

(** On a string the coercer returns: the complex value when [complex]
    accepts the stripped string, NaN in every other case. *)
Lemma to_complex_or_float_str (s : string) :
  to_complex_or_float (PStr s) =
  match Str.strip_chars "()" (Str.strip s) with
  | EmptyString => Return np_nan
  | x =>
      match Num.py_complex x with
      | Return c => Return (PComplex (fst c) (snd c))
      | Raise _ => Return np_nan
      end
  end.
Proof.
  unfold to_complex_or_float. cbn [pd_isnull is_float_or_int].
  destruct (Str.strip_chars "()" (Str.strip s)) as [|c x] eqn:E; [reflexivity|].
  destruct (Num.py_complex (String c x)) as [v|e] eqn:Ec; [reflexivity|].
  apply py_complex_exn in Ec. subst e. reflexivity.
Qed.

(** The result of the coercer is NaN or a complex number. *)
Lemma to_complex_or_float_shape (x : pyval) (v : pyval) :
  to_complex_or_float x = Return v ->
  v = np_nan \/ exists re im, v = PComplex re im.
Proof.
  destruct x as [|f|z|b|s|re im|].
  - intros [= <-]. now left.
  - unfold to_complex_or_float. cbn [pd_isnull is_float_or_int complex_of_number].
    destruct (F64.is_nan f); intros [= <-]; [now left|right; eauto].
  - unfold to_complex_or_float. cbn [pd_isnull is_float_or_int complex_of_number].
    destruct (F64.of_int z); cbn [bind]; [|discriminate].
    intros [= <-]. right; eauto.
  - unfold to_complex_or_float. cbn [pd_isnull is_float_or_int complex_of_number].
    intros [= <-]. right; eauto.
  - rewrite to_complex_or_float_str.
    destruct (Str.strip_chars _ _); [intros [= <-]; now left|].
    destruct (Num.py_complex _); intros [= <-]; [right; eauto|now left].
  - unfold to_complex_or_float. cbn [pd_isnull is_float_or_int].
    destruct (_ || _)%bool; intros [= <-]; now left.
  - intros [= <-]. now left.
Qed.

(** C8. The Numeric Coercer followed by the real-part extraction maps
    ["(0.5+0.2j)"] to 0.5, the empty string and null (None, NaN) to
    missing, 3.2 to 3.2 (any float that is not NaN to itself), a string
    that [complex] rejects to missing, a value of any other type to
    missing; and what it carries is always a float, the real part when
    the coercer produced a complex number. *)
Theorem numeric_coercer :
  coerce_real (PStr "(0.5+0.2j)") = Return (PFloat (dec 5 (-1)))
  /\ coerce_real (PStr "") = Return np_nan
  /\ coerce_real PNone = Return np_nan
  /\ coerce_real (PFloat F64.nan) = Return np_nan
  /\ coerce_real (PFloat (dec 32 (-1))) = Return (PFloat (dec 32 (-1)))
  /\ (forall x, F64.is_nan x = false -> coerce_real (PFloat x) = Return (PFloat x))
  /\ (forall s e, Num.py_complex (Str.strip_chars "()" (Str.strip s)) = Raise e ->
        coerce_real (PStr s) = Return np_nan)
  /\ coerce_real PObject = Return np_nan
  /\ (forall re im, coerce_real (PComplex re im) = Return np_nan)
  /\ (forall x re im, to_complex_or_float x = Return (PComplex re im) ->
        coerce_real x = Return (PFloat re))
  /\ (forall x v, coerce_real x = Return v -> exists f, v = PFloat f).
Proof.
  split; [vm_compute; reflexivity|].
  split; [vm_compute; reflexivity|].
  split; [vm_compute; reflexivity|].
  split; [vm_compute; reflexivity|].
  split; [vm_compute; reflexivity|].
  split; [|split; [|split; [reflexivity|split; [|split]]]].
  - intros x Hx. unfold coerce_real, to_complex_or_float.
    cbn [pd_isnull is_float_or_int complex_of_number]. rewrite Hx. reflexivity.
  - intros s e H. unfold coerce_real. rewrite to_complex_or_float_str.
    destruct (Str.strip_chars "()" (Str.strip s)); [reflexivity|].
    rewrite H. reflexivity.
  - intros re im. unfold coerce_real, to_complex_or_float.
    cbn [pd_isnull is_float_or_int]. destruct (_ || _)%bool; reflexivity.
  - intros x re im H. unfold coerce_real. rewrite H. reflexivity.
  - intros x v. unfold coerce_real.
    destruct (to_complex_or_float x) as [c|e] eqn:E; cbn [bind]; [|discriminate].
    intros [= <-].
    destruct (to_complex_or_float_shape x c E) as [->|(re & im & ->)];
      eexists; reflexivity.
Qed.

Lemma numeric_coercer_example :
  coerce_real (PStr "abc") = Return np_nan
  /\ coerce_real (PStr "(0.5+0.2j)") = Return (PFloat (dec 5 (-1))).
Proof.
  destruct numeric_coercer as (H1 & _ & _ & _ & _ & _ & H7 & _).
  split; [|exact H1].
  apply (H7 "abc" ValueError). vm_compute. reflexivity.
Defined.

(* ===================================================================== *)
(** * Integers as floats *)
(* ===================================================================== *)

Lemma digits2_size (p : positive) : digits2_pos p = Pos.size p.
Proof. induction p; simpl; congruence. Qed.

Lemma Zdigits2_bound (z k : Z) : 0 <= z < 2 ^ k -> 0 <= k -> Zdigits2 z <= k.
Proof.
  intros [Hz Hk] Hk0. destruct z as [|p|p]; simpl; try lia.
  rewrite digits2_size.
  pose proof (Pos.size_le p) as Hs.
  assert (H2 : 2 ^ Z.pos (Pos.size p) <= 2 * Z.pos p).
  { change (2 * Z.pos p) with (Z.pos p~0). rewrite <- Pos2Z.inj_pow. 
    apply Pos2Z.pos_le_pos. exact Hs. }
  assert (H3 : 2 ^ Z.pos (Pos.size p) < 2 ^ (k + 1)).
  { replace (k + 1) with (Z.succ k) by lia. rewrite Z.pow_succ_r by lia. lia. }
  apply Z.pow_lt_mono_r_iff in H3; lia.
Qed.

Lemma Zdigits2_nonneg z : 0 <= Zdigits2 z.
Proof. destruct z; simpl; lia. Qed.

Lemma shr_1_bound (mrs : shr_record) :
  0 <= shr_m mrs -> 0 <= shr_m (shr_1 mrs) <= shr_m mrs.
Proof.
  destruct mrs as [m r s]. simpl. intros H.
  destruct m as [|p|p]; try lia; [simpl; lia|].
  destruct p; simpl; lia.
Qed.

Lemma iter_shr_1_bound (p : positive) : forall mrs,
  0 <= shr_m mrs -> 0 <= shr_m (iter_pos shr_1 p mrs) <= shr_m mrs.
Proof.
  induction p as [p IH|p IH|]; intros mrs H; simpl.
  - pose proof (shr_1_bound mrs H) as H1.
    pose proof (IH _ (proj1 H1)) as H2.
    pose proof (IH _ (proj1 H2)) as H3. lia.
  - pose proof (IH _ H) as H2.
    pose proof (IH _ (proj1 H2)) as H3. lia.
  - apply shr_1_bound, H.
Qed.

Lemma shr_fexp_bound (m e : Z) (l : location) :
  0 <= m ->
  let '(mrs, e') := shr_fexp F64.prec F64.emax m e l in
  0 <= shr_m mrs <= m /\ e' = Z.max e (fexp F64.prec F64.emax (Zdigits2 m + e)).
Proof.
  intros Hm. unfold shr_fexp, shr.
  assert (Hrec : shr_m (shr_record_of_loc m l) = m).
  { destruct l as [|[]]; reflexivity. }
  destruct (fexp F64.prec F64.emax (Zdigits2 m + e) - e) as [|p|p] eqn:E.
  - rewrite Hrec. lia.
  - pose proof (iter_shr_1_bound p (shr_record_of_loc m l)) as H.
    rewrite Hrec in H. specialize (H Hm). lia.
  - rewrite Hrec. lia.
Qed.

Lemma round_nearest_even_bound (m : Z) (l : location) :
  m <= round_nearest_even m l <= m + 1.
Proof.
  unfold round_nearest_even. destruct l as [|[]]; try lia.
  destruct (Z.even m); lia.
Qed.

Lemma binary_round_aux_finite (s : bool) (mx ex : Z) (lx : location) :
  0 <= mx < 2 ^ 64 -> ex <= 0 ->
  forall s', binary_round_aux F64.prec F64.emax s mx ex lx <> S754_infinity s'.
Proof.
  intros Hmx Hex s'. unfold binary_round_aux.
  pose proof (shr_fexp_bound mx ex lx (proj1 Hmx)) as H1.
  destruct (shr_fexp F64.prec F64.emax mx ex lx) as [mrs' e'].
  destruct H1 as [Hm' He'].
  set (m1 := round_nearest_even (shr_m mrs') (loc_of_shr_record mrs')).
  pose proof (round_nearest_even_bound (shr_m mrs') (loc_of_shr_record mrs')) as Hr.
  fold m1 in Hr.
  assert (Hm1 : 0 <= m1) by lia.
  pose proof (shr_fexp_bound m1 e' loc_Exact Hm1) as H2.
  destruct (shr_fexp F64.prec F64.emax m1 e' loc_Exact) as [mrs'' e''].
  destruct H2 as [Hm'' He''].
  assert (Hd : Zdigits2 mx <= 64) by (apply Zdigits2_bound; lia).
  assert (Hd1 : Zdigits2 m1 <= 65).
  { apply Zdigits2_bound; [|lia]. change (2 ^ 65) with (2 * 2 ^ 64). lia. }
  pose proof (Zdigits2_nonneg mx). pose proof (Zdigits2_nonneg m1).
  unfold fexp, emin, F64.prec, F64.emax in *.
  destruct (shr_m mrs''); try discriminate.
  destruct (Z.leb_spec e'' (1024 - 53)); [discriminate|]. lia.
Qed.

Lemma iter_xO_pow (m d : positive) :
  Z.pos (Pos.iter xO m d) = Z.pos m * 2 ^ Z.pos d.
Proof.
  induction d as [|d IH] using Pos.peano_ind.
  - simpl. lia.
  - rewrite Pos.iter_succ, Pos2Z.inj_xO, IH, Pos2Z.inj_succ, Z.pow_succ_r by lia. lia.
Qed.

Lemma digits2_gt (p : positive) : Z.pos p < 2 ^ Z.pos (digits2_pos p).
Proof.
  rewrite digits2_size. pose proof (Pos.size_gt p) as H.
  rewrite <- Pos2Z.inj_pow. apply Pos2Z.pos_lt_pos. exact H.
Qed.

Lemma binary_round_finite (s : bool) (m : positive) :
  Z.pos m < 2 ^ 64 ->
  forall s', binary_round F64.prec F64.emax s m 0 <> S754_infinity s'.
Proof.
  intros Hm s'. unfold binary_round, shl_align.
  set (ex' := fexp F64.prec F64.emax (Z.pos (digits2_pos m) + 0)).
  destruct (ex' - 0) as [|d|d] eqn:E;
    try (apply binary_round_aux_finite; lia).
  apply binary_round_aux_finite; [|lia].
  split; [lia|]. rewrite iter_xO_pow.
  pose proof (digits2_gt m) as Hg.
  assert (Hd : Z.pos d = 53 - Z.pos (digits2_pos m)).
  { unfold ex', fexp, emin, F64.prec, F64.emax in E. lia. }
  assert (Hp : 2 ^ Z.pos (digits2_pos m) * 2 ^ Z.pos d = 2 ^ 53).
  { rewrite <- Z.pow_add_r by lia. f_equal. lia. }
  assert (0 < 2 ^ Z.pos d) by (apply Z.pow_pos_nonneg; lia).
  assert (2 ^ 53 < 2 ^ 64) by reflexivity.
  nia.
Qed.

Lemma of_int_in_range (z : Z) :
  - 2 ^ 64 < z < 2 ^ 64 -> F64.of_int z = Return (F64.of_Z z).
Proof.
  intros Hz. unfold F64.of_int.
  assert (H : forall s', F64.of_Z z <> S754_infinity s').
  { unfold F64.of_Z, binary_normalize. destruct z as [|p|p].
    - discriminate.
    - apply binary_round_finite. lia.
    - apply binary_round_finite. lia. }
  destruct (F64.of_Z z); try reflexivity. exfalso. eapply H. reflexivity.
Qed.

(* ===================================================================== *)
(** * Impedance File Reader *)
(* ===================================================================== *)

(** The coercer raises on one kind of value only: an integer too large
    for a float. *)
Lemma to_complex_or_float_raises (x : pyval) (e : exn) :
  to_complex_or_float x = Raise e -> exists z, x = PInt z /\ F64.of_int z = Raise e.
Proof.
  destruct x as [|f|z|b|s|re im|]; try discriminate.
  - unfold to_complex_or_float. cbn [pd_isnull is_float_or_int complex_of_number].
    destruct (F64.is_nan f); discriminate.
  - unfold to_complex_or_float. cbn [pd_isnull is_float_or_int complex_of_number].
    destruct (F64.of_int z) as [f|e'] eqn:E; cbn [bind]; [discriminate|].
    intros [= <-]. eauto.
  - rewrite to_complex_or_float_str.
    destruct (Str.strip_chars _ _); [discriminate|].
    destruct (Num.py_complex _); discriminate.
  - unfold to_complex_or_float. cbn [pd_isnull is_float_or_int].
    destruct (_ || _)%bool; discriminate.
Qed.

Lemma coerce_real_float (x v : pyval) :
  coerce_real x = Return v -> exists f, v = PFloat f.
Proof.
  unfold coerce_real.
  destruct (to_complex_or_float x) as [c|e] eqn:E; cbn [bind]; [|discriminate].
  intros [= <-].
  destruct (to_complex_or_float_shape x c E) as [->|(re & im & ->)];
    eexists; reflexivity.
Qed.

Lemma cell_in_range_coercible (c : cell) : cell_in_range c -> coercible c.
Proof.
  intros H. unfold coercible.
  destruct (to_complex_or_float (pyval_of_cell c)) as [v|e] eqn:E; [eauto|].
  apply to_complex_or_float_raises in E. destruct E as (z & Hz & He).
  destruct c; try discriminate. injection Hz as ->.
  rewrite (of_int_in_range z H) in He. discriminate.
Qed.

Lemma coercible_real_value (c : cell) (v : pyval) :
  to_complex_or_float (pyval_of_cell c) = Return v ->
  real_part v = PFloat (real_value c).
Proof.
  intros H. unfold real_value.
  assert (Hc : coerce_real (pyval_of_cell c) = Return (real_part v)).
  { unfold coerce_real. rewrite H. reflexivity. }
  rewrite Hc. destruct (coerce_real_float _ _ Hc) as [f ->]. reflexivity.
Qed.

Lemma mapM_coercible (col : list cell) :
  Forall coercible col ->
  exists vs, mapM (fun c => to_complex_or_float (pyval_of_cell c)) col = Return vs
             /\ map real_part vs = map (fun c => PFloat (real_value c)) col.
Proof.
  induction 1 as [|c col [v Hv] _ (vs & Hvs & Hm)].
  - exists []. split; reflexivity.
  - exists (v :: vs). split.
    + cbn [mapM]. rewrite Hv, Hvs. reflexivity.
    + cbn [map]. rewrite Hm, (coercible_real_value c v Hv). reflexivity.
Qed.

Lemma mapM_as_float (xs : list F64.float) :
  mapM as_float (map PFloat xs) = Return xs.
Proof.
  induction xs as [|x xs IH]; [reflexivity|].
  cbn [map mapM as_float bind]. rewrite IH. reflexivity.
Qed.

(** On a table that has the column, with every value coercible, the
    reader returns the median of the real values. *)
Lemma get_rectified_impedance_table
    (fs : filesystem) (path : string) (df : list (string * list cell)) (col : list cell) :
  fs path = Some (Table df) ->
  column "Rectified_Impedance" df = Some col ->
  Forall coercible col ->
  get_rectified_impedance fs path = Return (nanmedian (map real_value col)).
Proof.
  intros Hfs Hcol Hall.
  unfold get_rectified_impedance, os_path_exists, read_csv. rewrite Hfs.
  cbn [negb bind]. rewrite Hcol.
  destruct (mapM_coercible col Hall) as (vs & Hvs & Hm).
  rewrite Hvs. cbn [bind]. rewrite Hm.
  unfold Series_median.
  rewrite <- (map_map real_value PFloat), mapM_as_float. reflexivity.
Qed.

Lemma nanmedian_all_nan (xs : list F64.float) :
  Forall (fun x => x = F64.nan) xs -> nanmedian xs = F64.nan.
Proof.
  intros H. unfold nanmedian.
  assert (E : filter (fun x => negb (F64.is_nan x)) xs = []).
  { induction H as [|x xs -> _ IH]; [reflexivity|]. cbn. exact IH. }
  rewrite E. reflexivity.
Qed.

(** ** The median *)

(** Two floats that are not NaN are ordered one way or the other. *)
Lemma leb_total (x y : F64.float) :
  F64.is_nan x = false -> F64.is_nan y = false ->
  F64.leb x y = true \/ F64.leb y x = true.
Proof.
  unfold F64.leb, SFleb.
  destruct x as [s1|s1| |s1 m1 e1], y as [s2|s2| |s2 m2 e2];
    try discriminate; intros _ _; cbn [SFcompare];
    try (destruct s1; auto; fail); try (destruct s2; auto; fail);
    try (destruct s1, s2; auto; fail).
  assert (Hm : Pos.compare_cont Eq m2 m1 = CompOpp (Pos.compare_cont Eq m1 m2))
    by (symmetry; apply (Pos.compare_cont_antisym m1 m2 Eq)).
  destruct s1, s2; auto;
    rewrite (Z.compare_antisym e1 e2), Hm;
    destruct (e1 ?= e2); cbn [CompOpp]; auto;
    destruct (Pos.compare_cont Eq m1 m2); cbn [CompOpp]; auto.
Qed.

Lemma insert_float_Permutation (x : F64.float) (l : list F64.float) :
  Permutation (insert_float x l) (x :: l).
Proof.
  induction l as [|y l IH]; cbn [insert_float]; [apply Permutation_refl|].
  destruct (F64.leb x y); [apply Permutation_refl|].
  eapply Permutation_trans; [apply perm_skip, IH|apply perm_swap].
Qed.

Lemma sort_floats_Permutation (l : list F64.float) :
  Permutation (sort_floats l) l.
Proof.
  induction l as [|x l IH]; cbn [sort_floats fold_right]; [constructor|].
  eapply Permutation_trans; [apply insert_float_Permutation|].
  constructor. exact IH.
Qed.

Lemma insert_float_Sorted (x : F64.float) (l : list F64.float) :
  F64.is_nan x = false -> Forall (fun y => F64.is_nan y = false) l ->
  Sorted (fun a b => F64.leb a b = true) l ->
  Sorted (fun a b => F64.leb a b = true) (insert_float x l).
Proof.
  intros Hx Hl Hs. induction Hs as [|y l Hs IH Hhd]; cbn [insert_float].
  - repeat constructor.
  - inversion Hl as [|? ? Hy Hl']; subst.
    destruct (F64.leb x y) eqn:E.
    + constructor; [constructor; assumption|]. constructor. exact E.
    + constructor; [apply IH, Hl'|].
      destruct l as [|z l]; cbn [insert_float].
      * constructor. destruct (leb_total x y Hx Hy); congruence.
      * destruct (F64.leb x z).
        -- constructor. destruct (leb_total x y Hx Hy); congruence.
        -- inversion Hhd; subst. constructor. assumption.
Qed.

(** The values that are not missing, put in ascending order: what the
    median is read from. *)
Lemma sort_floats_Sorted (l : list F64.float) :
  Forall (fun y => F64.is_nan y = false) l ->
  Sorted (fun a b => F64.leb a b = true) (sort_floats l).
Proof.
  induction 1 as [|x l Hx Hl IH]; cbn [sort_floats fold_right]; [constructor|].
  apply insert_float_Sorted; [exact Hx| |exact IH].
  eapply Permutation_Forall; [apply Permutation_sym, sort_floats_Permutation|exact Hl].
Qed.

(** The median is read from the sorted values that are not missing: it is
    the middle one when their number is odd, the mean of the two middle
    ones when it is even. *)
Lemma nanmedian_spec (l : list F64.float) :
  let xs := sort_floats (filter (fun x => negb (F64.is_nan x)) l) in
  let n := List.length xs in
  Permutation xs (filter (fun x => negb (F64.is_nan x)) l)
  /\ Sorted (fun a b => F64.leb a b = true) xs
  /\ (n = O -> nanmedian l = F64.nan)
  /\ (Nat.odd n = true -> nanmedian l = nth (n / 2) xs F64.nan)
  /\ (n <> O -> Nat.even n = true ->
      nanmedian l = F64.div (F64.add (nth (n / 2 - 1) xs F64.nan) (nth (n / 2) xs F64.nan))
                            (F64.of_Z 2)).
Proof.
  cbv zeta. split; [apply sort_floats_Permutation|]. split.
  { apply sort_floats_Sorted. rewrite Forall_forall. intros x Hx.
    apply filter_In in Hx. destruct Hx as [_ Hx]. apply negb_true_iff in Hx. exact Hx. }
  unfold nanmedian.
  destruct (List.length (sort_floats (filter _ l))) as [|n] eqn:E.
  - split; [reflexivity|]. split; [discriminate|]. intros H. contradiction.
  - split; [discriminate|]. split.
    + intros Hodd. rewrite <- Nat.negb_odd, Hodd. reflexivity.
    + intros _ Hev. rewrite Hev. reflexivity.
Qed.

(** C5. Whatever the path leads to, the reader returns a value, it never
    raises; the value is the missing one when nothing exists at the
    path, when the table has no [Rectified_Impedance] column, when
    every value of the column is missing, when reading the file raises,
    and when a value of the column makes the coercer raise. *)
Theorem get_rectified_impedance_never_raises (fs : filesystem) (path : string) :
  (exists v, get_rectified_impedance fs path = Return v)
  /\ (fs path = None -> get_rectified_impedance fs path = Return F64.nan)
  /\ (forall df, fs path = Some (Table df) ->
        column "Rectified_Impedance" df = None ->
        get_rectified_impedance fs path = Return F64.nan)
  /\ (forall df col, fs path = Some (Table df) ->
        column "Rectified_Impedance" df = Some col ->
        Forall (fun c => coerce_real (pyval_of_cell c) = Return np_nan) col ->
        get_rectified_impedance fs path = Return F64.nan)
  /\ (forall e, fs path = Some (Unreadable e) ->
        get_rectified_impedance fs path = Return F64.nan)
  /\ (forall df col, fs path = Some (Table df) ->
        column "Rectified_Impedance" df = Some col ->
        raises (mapM (fun c => to_complex_or_float (pyval_of_cell c)) col) ->
        get_rectified_impedance fs path = Return F64.nan).
Proof.
  split; [|split; [|split; [|split; [|split]]]].
  - unfold get_rectified_impedance.
    destruct (negb (os_path_exists fs path)); [eauto|].
    unfold try_except, is_Exception.
    match goal with |- context [match ?c with _ => _ end] => destruct c end; eauto.
  - intros H. unfold get_rectified_impedance, os_path_exists. rewrite H. reflexivity.
  - intros df Hfs Hcol.
    unfold get_rectified_impedance, os_path_exists, read_csv. rewrite Hfs.
    cbn [negb bind]. rewrite Hcol. reflexivity.
  - intros df col Hfs Hcol Hall.
    assert (Hco : Forall coercible col).
    { eapply Forall_impl; [|exact Hall]. intros c Hc. unfold coerce_real in Hc.
      unfold coercible.
      destruct (to_complex_or_float (pyval_of_cell c)); [eauto|discriminate]. }
    rewrite (get_rectified_impedance_table fs path df col Hfs Hcol Hco).
    f_equal. apply nanmedian_all_nan.
    rewrite Forall_map. eapply Forall_impl; [|exact Hall].
    intros c Hc. unfold real_value. rewrite Hc. reflexivity.
  - intros e Hfs.
    unfold get_rectified_impedance, os_path_exists, read_csv. rewrite Hfs.
    reflexivity.
  - intros df col Hfs Hcol [e He].
    unfold get_rectified_impedance, os_path_exists, read_csv. rewrite Hfs.
    cbn [negb bind]. rewrite Hcol, He. reflexivity.
Qed.

Lemma get_rectified_impedance_never_raises_example :
  get_rectified_impedance example_fs "cleaned_dataset/data/99999.csv" = Return F64.nan
  /\ get_rectified_impedance example_fs "cleaned_dataset/data/00002.csv" = Return F64.nan
  /\ get_rectified_impedance example_fs "cleaned_dataset/data" = Return F64.nan.
Proof.
  split; [|split].
  - apply (proj1 (proj2 (get_rectified_impedance_never_raises example_fs
                           "cleaned_dataset/data/99999.csv"))).
    reflexivity.
  - destruct (get_rectified_impedance_never_raises example_fs
                "cleaned_dataset/data/00002.csv") as (_ & _ & H & _).
    eapply H; reflexivity.
  - destruct (get_rectified_impedance_never_raises example_fs
                "cleaned_dataset/data") as (_ & _ & _ & _ & H & _).
    eapply H; reflexivity.
Defined.

(** The coercer returns on every cell of a column that [mapM] gets
    through. *)
Lemma mapM_coercible_inv (col : list cell) (vs : list pyval) :
  mapM (fun c => to_complex_or_float (pyval_of_cell c)) col = Return vs ->
  Forall coercible col.
Proof.
  revert vs. induction col as [|c col IH]; intros vs H; [constructor|].
  cbn [mapM] in H.
  destruct (to_complex_or_float (pyval_of_cell c)) as [v|e] eqn:Ev;
    cbn [bind] in H; [|discriminate].
  destruct (mapM _ col) as [vs'|e] eqn:Evs; cbn [bind] in H; [|discriminate].
  constructor; [exists v; exact Ev|apply (IH vs' eq_refl)].
Qed.

(** C6. For a readable file with a [Rectified_Impedance] column the
    reader coerces every value of the column. When the coercer returns
    on all of them, the result is the median of the real parts, missing
    entries ignored: with the values that are not missing put in
    ascending order, the middle one, or the mean of the two middle ones,
    or the missing value when none is left. When the coercer raises on a
    value, the result is the missing value; it raises on integers too
    large for a float only, so never on the 64-bit integers, floats,
    booleans and strings of a column. *)
Theorem get_rectified_impedance_median
    (fs : filesystem) (path : string) (df : list (string * list cell)) (col : list cell) :
  fs path = Some (Table df) ->
  column "Rectified_Impedance" df = Some col ->
  (Forall coercible col ->
     Forall (fun c => coerce_real (pyval_of_cell c) = Return (PFloat (real_value c))) col
     /\ exists v xs,
          get_rectified_impedance fs path = Return v
          /\ Permutation xs (filter (fun x => negb (F64.is_nan x)) (map real_value col))
          /\ Sorted (fun a b => F64.leb a b = true) xs
          /\ (xs = [] -> v = F64.nan)
          /\ (Nat.odd (List.length xs) = true -> v = nth (List.length xs / 2) xs F64.nan)
          /\ (xs <> [] -> Nat.even (List.length xs) = true ->
              v = F64.div (F64.add (nth (List.length xs / 2 - 1) xs F64.nan)
                                   (nth (List.length xs / 2) xs F64.nan))
                          (F64.of_Z 2)))
  /\ (~ Forall coercible col ->
      get_rectified_impedance fs path = Return F64.nan
      /\ exists z, In (CInt z) col /\ complex_of_number (PInt z) = Raise OverflowError)
  /\ (Forall cell_in_range col -> Forall coercible col).
Proof.
  intros Hfs Hcol. split; [|split].
  - intros Hall. split.
    + eapply Forall_impl; [|exact Hall]. intros c [v Hv].
      unfold coerce_real. rewrite Hv. cbn [bind].
      rewrite (coercible_real_value c v Hv). reflexivity.
    + exists (nanmedian (map real_value col)),
             (sort_floats (filter (fun x => negb (F64.is_nan x)) (map real_value col))).
      split; [apply (get_rectified_impedance_table fs path df col Hfs Hcol Hall)|].
      destruct (nanmedian_spec (map real_value col)) as (HP & HS & H0 & Hodd & Hev).
      cbv zeta in *.
      split; [exact HP|]. split; [exact HS|]. split; [|split].
      * intros E. apply H0. rewrite E. reflexivity.
      * exact Hodd.
      * intros Hne. apply Hev. intros E. apply Hne.
        destruct (sort_floats _); [reflexivity|discriminate E].
  - intros Hnot.
    unfold get_rectified_impedance, os_path_exists, read_csv. rewrite Hfs.
    cbn [negb bind]. rewrite Hcol.
    destruct (mapM (fun c => to_complex_or_float (pyval_of_cell c)) col) as [vs|e] eqn:E.
    + exfalso. apply Hnot. apply (mapM_coercible_inv col vs E).
    + split; [reflexivity|].
      apply mapM_Raise in E. destruct E as (c & Hc & He).
      apply to_complex_or_float_raises in He. destruct He as (z & Hz & He).
      destruct c; try discriminate. injection Hz as ->.
      exists z. split; [exact Hc|].
      cbn [complex_of_number]. unfold F64.of_int in *.
      destruct (F64.of_Z z); try discriminate. reflexivity.
  - intros Hall. eapply Forall_impl; [|exact Hall]. apply cell_in_range_coercible.
Qed.

Lemma get_rectified_impedance_median_example :
  get_rectified_impedance example_fs "cleaned_dataset/data/00001.csv" = Return (dec 3 0)
  /\ get_rectified_impedance
       (example_file [CFloat (dec 5 0); CFloat F64.nan; CInt 1; CStr "(3+2j)"])
       "cleaned_dataset/data/00007.csv" = Return (dec 3 0)
  /\ (exists xs,
        Permutation xs [dec 5 0; dec 1 0; dec 3 0]
        /\ Sorted (fun a b => F64.leb a b = true) xs
        /\ nth 1 xs F64.nan = dec 3 0)
  /\ get_rectified_impedance (example_file [CInt (10 ^ 400); CInt 1; CInt 3])
       "cleaned_dataset/data/00007.csv" = Return F64.nan.
Proof.
  split; [vm_compute; reflexivity|].
  destruct (get_rectified_impedance_median
              (example_file [CFloat (dec 5 0); CFloat F64.nan; CInt 1; CStr "(3+2j)"])
              "cleaned_dataset/data/00007.csv" _ _ eq_refl eq_refl) as [H _].
  destruct H as (_ & v & xs & Hv & HP & HS & _ & Hodd & _).
  { repeat constructor; eexists; vm_compute; reflexivity. }
  assert (E : get_rectified_impedance
                (example_file [CFloat (dec 5 0); CFloat F64.nan; CInt 1; CStr "(3+2j)"])
                "cleaned_dataset/data/00007.csv" = Return (dec 3 0))
    by (vm_compute; reflexivity).
  split; [exact E|].
  rewrite E in Hv. injection Hv as <-.
  assert (HP' : Permutation xs [dec 5 0; dec 1 0; dec 3 0]).
  { eapply Permutation_trans; [exact HP|]. vm_compute. apply Permutation_refl. }
  split.
  { exists xs. split; [exact HP'|]. split; [exact HS|].
    rewrite (Permutation_length HP') in Hodd. symmetry. apply (Hodd eq_refl). }
  destruct (get_rectified_impedance_median
              (example_file [CInt (10 ^ 400); CInt 1; CInt 3])
              "cleaned_dataset/data/00007.csv" _ _ eq_refl eq_refl) as (_ & H & _).
  apply H. intros Hall. inversion Hall as [|c col [w Hw] _]; subst.
  vm_compute in Hw. discriminate Hw.
Defined.

(** A column that holds an integer too large for a float: the reader
    returns the missing value, though the coercer gives the real parts
    1.0 and 3.0 for the two other values, whose median is 2.0. *)
Lemma get_rectified_impedance_overflow :
  example_file [CInt (10 ^ 400); CInt 1; CInt 3] "cleaned_dataset/data/00007.csv"
  = Some (Table [("Rectified_Impedance", [CInt (10 ^ 400); CInt 1; CInt 3])])
  /\ to_complex_or_float (PInt (10 ^ 400)) = Raise OverflowError
  /\ coerce_real (PInt 1) = Return (PFloat (dec 1 0))
  /\ coerce_real (PInt 3) = Return (PFloat (dec 3 0))
  /\ nanmedian [dec 1 0; dec 3 0] = dec 2 0
  /\ get_rectified_impedance (example_file [CInt (10 ^ 400); CInt 1; CInt 3])
       "cleaned_dataset/data/00007.csv" = Return F64.nan.
Proof.
  repeat split; vm_compute; reflexivity.
Qed.

(* ===================================================================== *)
(** * Metadata fields: plain numeric parsing *)
(* ===================================================================== *)





(* ===================================================================== *)
(** * Cleaning Filter *)
(* ===================================================================== *)

Lemma Some_eq {A : Type} (a b : A) : Some a = Some b -> a = b.
Proof. congruence. Qed.

Lemma gt_int_0_exact (x : F64.float) :
  gt_int x 0 = true <-> F64.compare_int x 0 = Some Gt.
Proof.
  unfold gt_int, F64.ltb, SFltb.
  change (F64.of_Z 0) with (S754_zero false).
  destruct x as [s|s| |s m e]; cbn [SFcompare F64.compare_int].
  - split; discriminate.
  - destruct s; split; (discriminate || reflexivity).
  - split; discriminate.
  - assert (Hp : forall p, 0 < 2 ^ Z.pos p) by (intros; apply Z.pow_pos_nonneg; lia).
    destruct s; cbn [F64.signed]; split; try discriminate; try reflexivity; intros H.
    + exfalso. apply Some_eq in H.
      destruct e as [|p|p]; cbv beta iota in H;
        apply -> Z.compare_gt_iff in H; try pose proof (Hp p); nia.
    + f_equal. destruct e as [|p|p]; apply Z.compare_gt_iff; try pose proof (Hp p); nia.
Qed.

Lemma digits2_lower (p : positive) : 2 ^ Z.pos (digits2_pos p) <= 2 * Z.pos p.
Proof.
  rewrite digits2_size. pose proof (Pos.size_le p) as Hs.
  change (2 * Z.pos p) with (Z.pos p~0). rewrite <- Pos2Z.inj_pow.
  apply Pos2Z.pos_le_pos. exact Hs.
Qed.

Lemma pow2_le (a b : Z) : 0 <= a <= b -> 2 ^ a <= 2 ^ b.
Proof. intros. apply Z.pow_le_mono_r; lia. Qed.

Lemma lt_int_10_exact (x : F64.float) :
  F64.valid x ->
  (lt_int x 10 = true <-> F64.compare_int x 10 = Some Lt).
Proof.
  unfold lt_int, F64.ltb, SFltb, F64.valid.
  change (F64.of_Z 10) with (S754_finite false 5629499534213120 (-49)).
  destruct x as [s|s| |s m e]; cbn [SFcompare F64.compare_int valid_binary].
  - intros _. split; reflexivity.
  - intros _. destruct s; split; (discriminate || reflexivity).
  - intros _. split; discriminate.
  - intros Hv.
    assert (Hp : forall p, 0 < 2 ^ Z.pos p) by (intros; apply Z.pow_pos_nonneg; lia).
    destruct s; cbn [F64.signed].
    + split; [intros _|reflexivity]. f_equal.
      destruct e as [|p|p]; apply Z.compare_lt_iff; try pose proof (Hp p); nia.
    + unfold bounded, canonical_mantissa, fexp, emin, F64.prec, F64.emax in Hv.
      apply andb_prop in Hv. destruct Hv as [Hc He].
      apply Z.eqb_eq in Hc. apply Z.leb_le in He.
      pose proof (digits2_gt m) as Hup. pose proof (digits2_lower m) as Hlo.
      set (d := Z.pos (digits2_pos m)) in *.
      assert (Hd : 0 < d) by (unfold d; lia).
      destruct (Z.compare_spec e (-49)) as [E|L|G].
      * subst e. rewrite Pos.compare_cont_spec. cbn [Pos.switch_Eq].
        change (10 * 2 ^ 49) with 5629499534213120.
        rewrite <- Pos2Z.inj_compare.
        destruct (m ?= 5629499534213120)%positive; cbn [Pos.switch_Eq];
          split; congruence.
      * split; [intros _|reflexivity]. f_equal.
        destruct e as [|p|p]; try lia. apply Z.compare_lt_iff.
        assert (d <= 53) by lia.
        pose proof (pow2_le d 53 ltac:(lia)).
        pose proof (pow2_le 50 (Z.pos p) ltac:(lia)).
        change (2 ^ 53) with 9007199254740992 in *.
        change (2 ^ 50) with 1125899906842624 in *. lia.
      * split; [discriminate|]. intros H. exfalso.
        assert (d = 53) by lia.
        assert (Hm : 2 ^ 52 <= Z.pos m).
        { replace d with 53 in Hlo. change (2 ^ 53) with (2 * 2 ^ 52) in Hlo. lia. }
        change (2 ^ 52) with 4503599627370496 in Hm.
        apply Some_eq in H.
        destruct e as [|p|p]; cbv beta iota in H; apply -> Z.compare_lt_iff in H.
        -- pose proof (Z.pow_0_r 2). nia.
        -- pose proof (Hp p). nia.
        -- pose proof (pow2_le (Z.pos p) 48 ltac:(lia)).
           change (2 ^ 48) with 281474976710656 in *. lia.
Qed.

(** The three tests of the filter on one metric say that it is present
    and that its value is strictly between 0 and 10. *)
Lemma metric_tests_exact (x : F64.float) :
  F64.valid x ->
  (negb (F64.is_nan x) = true /\ gt_int x 0 = true /\ lt_int x 10 = true
   <-> strictly_within_0_10 x).
Proof.
  intros Hv. unfold strictly_within_0_10.
  rewrite negb_true_iff, gt_int_0_exact, (lt_int_10_exact x Hv). reflexivity.
Qed.

Lemma impedance_data_clean_In (l : list impedance_row) (r : impedance_row) :
  In r (impedance_data_clean l) <->
  In r l /\ all_present r = true /\ in_range r = true.
Proof.
  unfold impedance_data_clean. rewrite !filter_In. tauto.
Qed.

(** C4. The Cleaning Filter keeps a record exactly when [Re], [Rct] and
    the rectified impedance are all present and each is strictly
    between 0 and 10 (the metrics being binary64 values); every record
    it returns is a record of its input, as it was; a record with
    [Re = 0] or [Rct = 10] is dropped, one with 5, 5 and 5 is kept. *)
Theorem cleaning_filter (l : list impedance_row) :
  (forall r, valid_metrics r ->
     (In r (impedance_data_clean l) <->
      In r l /\ strictly_within_0_10 (Re (i_row r))
      /\ strictly_within_0_10 (Rct (i_row r))
      /\ strictly_within_0_10 (Rectified_Impedance r)))
  /\ (forall r, In r (impedance_data_clean l) -> In r l)
  /\ (forall r, Re (i_row r) = F64.of_Z 0 -> ~ In r (impedance_data_clean l))
  /\ (forall r, Rct (i_row r) = F64.of_Z 10 -> ~ In r (impedance_data_clean l))
  /\ (forall r, In r l ->
        Re (i_row r) = F64.of_Z 5 -> Rct (i_row r) = F64.of_Z 5 ->
        Rectified_Impedance r = F64.of_Z 5 ->
        In r (impedance_data_clean l)).
Proof.
  split; [|split; [|split; [|split]]].
  - intros r (HRe & HRct & HRI).
    rewrite impedance_data_clean_In.
    rewrite <- (metric_tests_exact _ HRe), <- (metric_tests_exact _ HRct),
            <- (metric_tests_exact _ HRI).
    unfold all_present, in_range. rewrite !andb_true_iff. tauto.
  - intros r H. apply impedance_data_clean_In in H. tauto.
  - intros r H Hin. apply impedance_data_clean_In in Hin.
    destruct Hin as (_ & _ & Hr). unfold in_range in Hr. rewrite H in Hr.
    rewrite !andb_true_iff in Hr. destruct Hr as [[[[[Hr _] _] _] _] _].
    vm_compute in Hr. discriminate Hr.
  - intros r H Hin. apply impedance_data_clean_In in Hin.
    destruct Hin as (_ & _ & Hr). unfold in_range in Hr. rewrite H in Hr.
    rewrite !andb_true_iff in Hr. destruct Hr as [[[[_ _] Hr] _] _].
    vm_compute in Hr. discriminate Hr.
  - intros r Hin HRe HRct HRI. apply impedance_data_clean_In.
    unfold all_present, in_range. rewrite HRe, HRct, HRI.
    split; [exact Hin|]. split; reflexivity.
Qed.

Lemma cleaning_filter_example :
  In (example_impedance_row (dec 5 0) (dec 5 0) (dec 5 0) 3)
     (impedance_data_clean
        [example_impedance_row (dec 0 0) (dec 5 0) (dec 5 0) 1;
         example_impedance_row (dec 5 0) (dec 10 0) (dec 5 0) 2;
         example_impedance_row (dec 5 0) (dec 5 0) (dec 5 0) 3])
  /\ ~ In (example_impedance_row (dec 0 0) (dec 5 0) (dec 5 0) 1)
       (impedance_data_clean
          [example_impedance_row (dec 0 0) (dec 5 0) (dec 5 0) 1;
           example_impedance_row (dec 5 0) (dec 10 0) (dec 5 0) 2;
           example_impedance_row (dec 5 0) (dec 5 0) (dec 5 0) 3]).
Proof.
  set (l := [example_impedance_row (dec 0 0) (dec 5 0) (dec 5 0) 1;
             example_impedance_row (dec 5 0) (dec 10 0) (dec 5 0) 2;
             example_impedance_row (dec 5 0) (dec 5 0) (dec 5 0) 3]).
  destruct (cleaning_filter l) as (H1 & _ & H3 & _).
  split.
  - apply H1.
    + repeat split.
    + split; [right; right; left; reflexivity|]. repeat split.
  - apply H3. reflexivity.
Defined.

(* ===================================================================== *)
(** * Lists, permutations and sorted lists *)
(* ===================================================================== *)

Lemma take_cons {A : Type} (i : nat) (idx : list nat) (l : list A) :
  take (i :: idx) l
  = match nth_error l i with Some x => [x] | None => [] end ++ take idx l.
Proof. reflexivity. Qed.

Lemma take_seq_from {A : Type} (l2 : list A) : forall l1,
  take (seq (List.length l1) (List.length l2)) (l1 ++ l2) = l2.
Proof.
  induction l2 as [|x l2 IH]; intros l1; [reflexivity|].
  cbn [List.length seq]. rewrite take_cons.
  rewrite nth_error_app2 by lia. rewrite Nat.sub_diag. cbn [nth_error app].
  f_equal.
  specialize (IH (l1 ++ [x])).
  rewrite length_app, <- app_assoc in IH. cbn [List.length app] in IH.
  rewrite Nat.add_1_r in IH. exact IH.
Qed.

Lemma take_seq {A : Type} (l : list A) : take (seq 0 (List.length l)) l = l.
Proof. exact (take_seq_from l []). Qed.

Lemma take_Permutation {A : Type} (idx : list nat) (l : list A) :
  Permutation idx (seq 0 (List.length l)) -> Permutation (take idx l) l.
Proof.
  intros H. rewrite <- (take_seq l) at 2.
  unfold take. apply Permutation_flat_map. exact H.
Qed.


Lemma filter_split_Permutation {A : Type} (f : A -> bool) (l : list A) :
  Permutation (filter f l ++ filter (fun x => negb (f x)) l) l.
Proof.
  induction l as [|x l IH]; [constructor|].
  cbn [filter]. destruct (f x); cbn [negb app].
  - constructor. exact IH.
  - apply Permutation_sym, Permutation_cons_app, Permutation_sym, IH.
Qed.



Lemma filter_none {A : Type} (f : A -> bool) (l : list A) :
  Forall (fun x => f x = false) l -> filter f l = [].
Proof.
  induction 1 as [|x l Hx _ IH]; [reflexivity|].
  cbn [filter]. rewrite Hx, IH. reflexivity.
Qed.



Lemma StronglySorted_map {A B : Type} (R : A -> A -> Prop) (S : B -> B -> Prop)
    (f : A -> B) (l : list A) :
  (forall a b, R a b -> S (f a) (f b)) ->
  StronglySorted R l -> StronglySorted S (map f l).
Proof.
  intros HRS. induction 1 as [|x l Hs IH Hall]; cbn [map]; constructor.
  - exact IH.
  - rewrite Forall_map. eapply Forall_impl; [|exact Hall]. intros b. apply HRS.
Qed.



Lemma filter_Permutation {A : Type} (f : A -> bool) (l l' : list A) :
  Permutation l l' -> Permutation (filter f l) (filter f l').
Proof.
  induction 1 as [|x l l' _ IH|x y l|l l' l'' _ IH1 _ IH2]; cbn [filter].
  - constructor.
  - destruct (f x); [constructor|]; exact IH.
  - destruct (f x), (f y); try apply Permutation_refl. constructor.
  - eapply Permutation_trans; eassumption.
Qed.

(* ===================================================================== *)
(** * The order of timestamps *)
(* ===================================================================== *)


Lemma lex_leb_cons (x y : Z) (a b : list Z) :
  lex_leb (x :: a) (y :: b) = true <-> x < y \/ (x = y /\ lex_leb a b = true).
Proof.
  cbn [lex_leb]. rewrite orb_true_iff, andb_true_iff, Z.ltb_lt, Z.eqb_eq. reflexivity.
Qed.


Lemma lex_leb_trans : forall a b c : list Z,
  lex_leb a b = true -> lex_leb b c = true -> lex_leb a c = true.
Proof.
  induction a as [|x a IH]; intros b c Hab Hbc; [reflexivity|].
  destruct b as [|y b]; [discriminate|]. destruct c as [|z c]; [discriminate|].
  apply lex_leb_cons in Hab, Hbc. apply lex_leb_cons.
  destruct Hab as [Hab|[-> Hab]], Hbc as [Hbc|[-> Hbc]]; try (left; lia).
  right. split; [reflexivity|]. eapply IH; eassumption.
Qed.

Lemma lex_leb_total : forall a b : list Z,
  List.length a = List.length b ->
  lex_leb a b = true \/ lex_leb b a = true.
Proof.
  induction a as [|x a IH]; intros [|y b] Hlen; try discriminate; [left; reflexivity|].
  injection Hlen as Hlen. rewrite !lex_leb_cons.
  destruct (Z.lt_total x y) as [H|[H|H]]; try (left; left; exact H);
    try (right; left; exact H).
  subst y. destruct (IH b Hlen); [left|right]; right; auto.
Qed.




Lemma ts_leb_trans (t1 t2 t3 : Timestamp) :
  ts_leb t1 t2 = true -> ts_leb t2 t3 = true -> ts_leb t1 t3 = true.
Proof. apply lex_leb_trans. Qed.

Lemma ts_leb_total (t1 t2 : Timestamp) :
  ts_leb t1 t2 = true \/ ts_leb t2 t1 = true.
Proof. apply lex_leb_total. reflexivity. Qed.




(* ===================================================================== *)
(** * Record Classifier and Indexer *)
(* ===================================================================== *)

Lemma has_time_true (r : row) : has_time r = true -> exists t, start_time r = Some t.
Proof. unfold has_time. destruct (start_time r); [eauto|discriminate]. Qed.

Lemma has_time_false (r : row) : has_time r = false -> start_time r = None.
Proof. unfold has_time. destruct (start_time r); [discriminate|reflexivity]. Qed.

Lemma present_keys_cons (r : row) (rows : list row) :
  present_keys (r :: rows)
  = match start_time r with Some t => [t] | None => [] end ++ present_keys rows.
Proof. reflexivity. Qed.

Lemma start_time_present (rows : list row) :
  map start_time (filter has_time rows) = map Some (present_keys rows).
Proof.
  induction rows as [|r rows IH]; [reflexivity|].
  rewrite present_keys_cons. cbn [filter].
  destruct (has_time r) eqn:E.
  - destruct (has_time_true r E) as [t Ht]. cbn [map]. rewrite Ht, IH. reflexivity.
  - rewrite (has_time_false r E). exact IH.
Qed.


Lemma present_keys_length (rows : list row) :
  List.length (present_keys rows) = List.length (filter has_time rows).
Proof.
  rewrite <- (length_map Some), <- start_time_present, length_map. reflexivity.
Qed.

Section SortValues.

Variable argsort : list Timestamp -> list nat.
Hypothesis Hspec : argsort_spec argsort.


Lemma sort_values_Permutation (rows : list row) :
  Permutation (sort_values argsort rows) rows.
Proof.
  unfold sort_values.
  eapply Permutation_trans; [|apply (filter_split_Permutation has_time)].
  apply Permutation_app_tail, take_Permutation.
  rewrite <- present_keys_length. apply Hspec.
Qed.



Lemma partition_sorted_Permutation (name : string) (rows : list row) :
  Permutation (partition_sorted argsort name rows) (filter (is_type name) rows).
Proof.
  unfold partition_sorted, metadata.
  eapply Permutation_trans; [apply sort_values_Permutation|].
  apply filter_Permutation, sort_values_Permutation.
Qed.


End SortValues.

Lemma ranks_length (n : nat) : List.length (ranks n) = n.
Proof. unfold ranks. rewrite length_map, length_seq. reflexivity. Qed.

Lemma combine_fst {A B : Type} : forall (l : list A) (l' : list B),
  List.length l = List.length l' -> map fst (combine l l') = l.
Proof.
  induction l as [|x l IH]; intros [|y l'] H; try discriminate; [reflexivity|].
  cbn [combine map fst]. f_equal. apply IH. injection H as H. exact H.
Qed.

Lemma combine_snd {A B : Type} : forall (l : list A) (l' : list B),
  List.length l = List.length l' -> map snd (combine l l') = l'.
Proof.
  induction l as [|x l IH]; intros [|y l'] H; try discriminate; [reflexivity|].
  cbn [combine map snd]. f_equal. apply IH. injection H as H. exact H.
Qed.







Section Ranking.

Variable argsort : list Timestamp -> list nat.
Hypothesis Hspec : argsort_spec argsort.


Lemma rank_partition_fst (name : string) (rows : list row) :
  map fst (rank_partition argsort name rows) = partition_sorted argsort name rows.
Proof. unfold rank_partition. apply combine_fst. rewrite ranks_length. reflexivity. Qed.







End Ranking.

(** ** The stable instance of [argsort] *)

Lemma take_nth {A : Type} (d : A) (l : list A) (idx : list nat) :
  Forall (fun i => (i < List.length l)%nat) idx ->
  take idx l = map (fun i => nth i l d) idx.
Proof.
  induction 1 as [|i idx Hi _ IH]; [reflexivity|].
  rewrite take_cons, IH. cbn [map].
  rewrite (nth_error_nth' l d Hi). reflexivity.
Qed.

Section InsertionArgsort.

Variable ks : list Timestamp.
Variable d : Timestamp.

Lemma insert_idx_Permutation (i : nat) (l : list nat) :
  Permutation (insert_idx ks d i l) (i :: l).
Proof.
  induction l as [|j l IH]; cbn [insert_idx]; [apply Permutation_refl|].
  destruct (ts_leb _ _); [apply Permutation_refl|].
  eapply Permutation_trans; [apply perm_skip, IH|apply perm_swap].
Qed.

Lemma insert_idx_sorted (i : nat) (l : list nat) :
  StronglySorted (idx_le ks d) l -> StronglySorted (idx_le ks d) (insert_idx ks d i l).
Proof.
  induction 1 as [|j l Hs IH Hall]; cbn [insert_idx].
  - repeat constructor.
  - destruct (ts_leb (nth i ks d) (nth j ks d)) eqn:E.
    + constructor; [constructor; assumption|].
      constructor; [exact E|].
      eapply Forall_impl; [|exact Hall]. intros k Hjk.
      unfold idx_le in *. eapply ts_leb_trans; eassumption.
    + constructor; [exact IH|].
      eapply Permutation_Forall; [apply Permutation_sym, insert_idx_Permutation|].
      constructor; [|exact Hall].
      unfold idx_le. destruct (ts_leb_total (nth i ks d) (nth j ks d)); congruence.
Qed.

Lemma fold_insert_idx_Permutation (l : list nat) :
  Permutation (fold_right (insert_idx ks d) [] l) l.
Proof.
  induction l as [|i l IH]; cbn [fold_right]; [constructor|].
  eapply Permutation_trans; [apply insert_idx_Permutation|]. constructor. exact IH.
Qed.

Lemma fold_insert_idx_sorted (l : list nat) :
  StronglySorted (idx_le ks d) (fold_right (insert_idx ks d) [] l).
Proof.
  induction l as [|i l IH]; cbn [fold_right]; [constructor|].
  apply insert_idx_sorted, IH.
Qed.

End InsertionArgsort.

Lemma insertion_argsort_spec : argsort_spec insertion_argsort.
Proof.
  split; intros ks.
  - destruct ks as [|d ks]; [constructor|]. apply fold_insert_idx_Permutation.
  - destruct ks as [|d ks]; [constructor|].
    unfold insertion_argsort.
    set (l := d :: ks).
    rewrite (take_nth d).
    + eapply StronglySorted_map; [|apply (fold_insert_idx_sorted l d)].
      intros a b H. exact H.
    + eapply Permutation_Forall;
        [apply Permutation_sym, fold_insert_idx_Permutation|].
      rewrite Forall_forall. intros i Hi. apply in_seq in Hi. lia.
Qed.

(** ** Cycle numbers *)



(** ** Selection sort is an [argsort] *)

Section SelectionArgsort.

Variable ks : list Timestamp.
Variable d : Timestamp.









End SelectionArgsort.



(* ===================================================================== *)
(** * Numbering comes before cleaning *)
(* ===================================================================== *)

Lemma impedance_data_ranked
    (argsort : list Timestamp -> list nat) (fs : filesystem) (rows : list row)
    (imp : list impedance_row) :
  impedance_data argsort fs rows = Return imp ->
  map (fun r => (i_row r, impedance_cycle_number r)) imp = impedance_ranked argsort rows.
Proof.
  unfold impedance_data.
  destruct (mapM _ (impedance_ranked argsort rows)) as [vals|e] eqn:E;
    cbn [bind]; [|discriminate].
  intros [= <-]. rewrite map_map. cbn [i_row impedance_cycle_number].
  apply mapM_length in E.
  rewrite <- (combine_fst (impedance_ranked argsort rows) vals) at 2 by congruence.
  apply map_ext. intros [[r k] v]. reflexivity.
Qed.

Lemma rectified_value_missing (fs : filesystem) (r : row) (fname : string) :
  filename r = CStr fname ->
  fs (os_path_join data_base_path fname) = None ->
  rectified_value fs r = Return F64.nan.
Proof.
  intros Hf Hfs. unfold rectified_value, get_rectified_impedance, os_path_exists.
  rewrite Hf, Hfs. reflexivity.
Qed.

(** C3. The impedance cycle numbers are those given before the files are
    read and before the Cleaning Filter runs: every row of the cleaned
    set carries the rank it has in the ranked impedance partition. With
    three impedance rows [r1], [r2], [r3] in chronological order, the
    file of [r2] missing and the other two passing the filter, the
    cleaned set is [r1] with number 1 and [r3] with number 3. *)
Theorem number_before_filter
    (argsort : list Timestamp -> list nat) (fs : filesystem) (rows : list row) :
  (forall imp, impedance_data argsort fs rows = Return imp ->
     map (fun r => (i_row r, impedance_cycle_number r)) imp
       = impedance_ranked argsort rows
     /\ (forall r, In r (impedance_data_clean imp) ->
           In (i_row r, impedance_cycle_number r) (impedance_ranked argsort rows)))
  /\ (forall r1 r2 r3 f2 v1 v3,
        partition_sorted argsort "impedance" rows = [r1; r2; r3] ->
        filename r2 = CStr f2 ->
        fs (os_path_join data_base_path f2) = None ->
        rectified_value fs r1 = Return v1 ->
        rectified_value fs r3 = Return v3 ->
        kept (mkImpedance r1 1 v1) = true ->
        kept (mkImpedance r3 3 v3) = true ->
        exists imp,
          impedance_data argsort fs rows = Return imp
          /\ imp = [mkImpedance r1 1 v1; mkImpedance r2 2 F64.nan; mkImpedance r3 3 v3]
          /\ impedance_data_clean imp = [mkImpedance r1 1 v1; mkImpedance r3 3 v3]).
Proof.
  split.
  - intros imp Himp. split; [apply (impedance_data_ranked _ _ _ _ Himp)|].
    intros r Hr. rewrite <- (impedance_data_ranked _ _ _ _ Himp).
    apply impedance_data_clean_In in Hr. destruct Hr as [Hr _].
    apply (in_map (fun r => (i_row r, impedance_cycle_number r))). exact Hr.
  - intros r1 r2 r3 f2 v1 v3 Hpart Hf2 Hfs Hv1 Hv3 Hk1 Hk3.
    eexists. split; [|split; [reflexivity|]].
    + unfold impedance_data, impedance_ranked, rank_partition. rewrite Hpart.
      cbn [List.length ranks seq map combine mapM fst snd].
      rewrite Hv1, (rectified_value_missing fs r2 f2 Hf2 Hfs), Hv3.
      reflexivity.
    + unfold kept in Hk1, Hk3. apply andb_prop in Hk1, Hk3.
      destruct Hk1 as [Hp1 Hr1], Hk3 as [Hp3 Hr3].
      unfold impedance_data_clean. cbn [filter].
      rewrite Hp1, Hp3.
      replace (all_present (mkImpedance r2 2 F64.nan)) with false
        by (unfold all_present; cbn [Rectified_Impedance F64.is_nan negb];
            rewrite andb_false_r; reflexivity).
      cbn [filter]. rewrite Hr1, Hr3. reflexivity.
Qed.

Lemma number_before_filter_example :
  exists imp,
    impedance_data insertion_argsort example_fs example_metadata = Return imp
    /\ map impedance_cycle_number imp = [1; 2; 3]
    /\ map impedance_cycle_number (impedance_data_clean imp) = [1; 3].
Proof.
  destruct (number_before_filter insertion_argsort example_fs example_metadata)
    as [_ H].
  edestruct H as (imp & Himp & -> & Hclean).
  - vm_compute. reflexivity.
  - reflexivity.
  - reflexivity.
  - vm_compute. reflexivity.
  - vm_compute. reflexivity.
  - vm_compute. reflexivity.
  - vm_compute. reflexivity.
  - eexists. split; [exact Himp|]. split; [reflexivity|].
    rewrite Hclean. reflexivity.
Defined.

(* ===================================================================== *)
(** * More on the Timestamp Normalizer *)
(* ===================================================================== *)

(** X1. The missing timestamp is the answer exactly when the token count
    is not six. *)
Theorem parse_matlab_time_NaT_iff (s : string) :
  parse_matlab_time s = Return NaT <-> List.length (tokens s) <> 6%nat.
Proof.
  split.
  - intros H Hlen.
    destruct (parse_matlab_time_six_tokens s Hlen) as [[ts Hts]|[e He]];
      rewrite H in *; discriminate.
  - intros H. rewrite parse_matlab_time_eq.
    destruct (Nat.eqb_spec (List.length (tokens s)) 6) as [E|_]; [contradiction|].
    reflexivity.
Qed.

Lemma parse_matlab_time_NaT_iff_example :
  parse_matlab_time "2015 3 18 9 31 40 7" = Return NaT.
Proof.
  apply (proj2 (parse_matlab_time_NaT_iff "2015 3 18 9 31 40 7")).
  vm_compute. discriminate.
Defined.

Lemma of_int_Return (z : Z) (f : F64.float) :
  F64.of_int z = Return f -> f = F64.of_Z z.
Proof.
  unfold F64.of_int. destruct (F64.of_Z z); intros H; try discriminate;
    injection H as <-; reflexivity.
Qed.

Lemma Timestamp_new_Return (y mo d h mi s us : Z) (ts : Timestamp) :
  Timestamp_new y mo d h mi s us = Return ts ->
  ts = mkTimestamp y mo d h mi s us /\ valid_fields y mo d h mi s us = true.
Proof.
  unfold Timestamp_new. destruct (negb _); [discriminate|].
  destruct (valid_fields y mo d h mi s us); [|discriminate].
  intros [= <-]. split; reflexivity.
Qed.

(** X2. A timestamp that the normalizer returns has fields the
    constructor accepts (an existing date, a time of day, microseconds
    below a million), and they are the truncated tokens and the rounded
    fraction of the sixth. *)
Theorem parse_matlab_time_sound (s : string) (ts : Timestamp) :
  parse_matlab_time s = Return (Some ts) ->
  valid_fields (year ts) (month ts) (day ts) (hour ts) (minute ts) (second ts)
               (microsecond ts) = true
  /\ exists fy fmo fd fh fmi fsec,
       mapM Num.py_float (tokens s) = Return [fy; fmo; fd; fh; fmi; fsec]
       /\ F64.to_int fy = Return (year ts)
       /\ F64.to_int fmo = Return (month ts)
       /\ F64.to_int fd = Return (day ts)
       /\ F64.to_int fh = Return (hour ts)
       /\ F64.to_int fmi = Return (minute ts)
       /\ F64.to_int fsec = Return (second ts)
       /\ F64.round (F64.mul (F64.sub fsec (F64.of_Z (second ts))) (F64.of_Z 1000000))
          = Return (microsecond ts).
Proof.
  rewrite parse_matlab_time_eq.
  destruct (negb _); [discriminate|].
  destruct (mapM Num.py_float (tokens s)) as [arr|e]; cbn [bind]; [|discriminate].
  destruct arr as [|fy [|fmo [|fd [|fh [|fmi [|fsec [|? ?]]]]]]]; try discriminate.
  destruct (F64.to_int fsec) as [whole|e] eqn:Es; cbn [bind]; [|discriminate].
  unfold F64.sub_int, F64.mul_int.
  destruct (F64.of_int whole) as [fw|e] eqn:Ew; cbn [bind]; [|discriminate].
  apply of_int_Return in Ew. subst fw.
  destruct (F64.of_int 1000000) as [fm|e] eqn:Em; cbn [bind]; [|discriminate].
  apply of_int_Return in Em. subst fm.
  destruct (F64.round _) as [us|e] eqn:Eus; cbn [bind]; [|discriminate].
  destruct (F64.to_int fy) as [y|e] eqn:Ey; cbn [bind]; [|discriminate].
  destruct (F64.to_int fmo) as [mo|e] eqn:Emo; cbn [bind]; [|discriminate].
  destruct (F64.to_int fd) as [d|e] eqn:Ed; cbn [bind]; [|discriminate].
  destruct (F64.to_int fh) as [h|e] eqn:Eh; cbn [bind]; [|discriminate].
  destruct (F64.to_int fmi) as [mi|e] eqn:Emi; cbn [bind]; [|discriminate].
  destruct (Timestamp_new y mo d h mi whole us) as [ts'|e] eqn:Et; cbn [bind];
    [|discriminate].
  intros [= <-]. apply Timestamp_new_Return in Et. destruct Et as [-> Hv].
  cbn [year month day hour minute second microsecond].
  split; [exact Hv|].
  exists fy, fmo, fd, fh, fmi, fsec. repeat split; assumption.
Qed.

Lemma parse_matlab_time_sound_example :
  exists ts,
    parse_matlab_time "[2010.  7. 21. 15.  0. 35.093]" = Return (Some ts)
    /\ valid_fields (year ts) (month ts) (day ts) (hour ts) (minute ts) (second ts)
                    (microsecond ts) = true.
Proof.
  eexists. split; [vm_compute; reflexivity|].
  refine (proj1 (parse_matlab_time_sound "[2010.  7. 21. 15.  0. 35.093]" _ _)).
  vm_compute. reflexivity.
Defined.

(** ** The exceptions that can leave the normalizer *)

Lemma py_float_exn (s : string) (e : exn) :
  Num.py_float s = Raise e -> e = ValueError.
Proof.
  unfold Num.py_float, Num.with_underscores, Num.float_inner.
  destruct (Str.mem _ _).
  - destruct (Num.drop_underscores _ _); [|congruence].
    destruct (Num.strtod _) as [[x [|c r]]|]; congruence.
  - destruct (Num.strtod _) as [[x [|c r]]|]; congruence.
Qed.


Lemma to_int_exn (x : F64.float) (e : exn) :
  F64.to_int x = Raise e -> value_or_overflow e.
Proof.
  unfold value_or_overflow. destruct x; cbn; intros [= <-]; auto.
Qed.

Lemma round_exn (x : F64.float) (e : exn) :
  F64.round x = Raise e -> value_or_overflow e.
Proof.
  unfold value_or_overflow. destruct x; cbn; intros [= <-]; auto.
Qed.

Lemma of_int_exn (z : Z) (e : exn) :
  F64.of_int z = Raise e -> value_or_overflow e.
Proof.
  unfold value_or_overflow, F64.of_int.
  destruct (F64.of_Z z); intros [= <-]; auto.
Qed.

Lemma sub_int_exn (x : F64.float) (z : Z) (e : exn) :
  F64.sub_int x z = Raise e -> value_or_overflow e.
Proof.
  unfold F64.sub_int. destruct (F64.of_int z) eqn:E; cbn [bind]; [discriminate|].
  intros [= <-]. eapply of_int_exn, E.
Qed.

Lemma mul_int_exn (x : F64.float) (z : Z) (e : exn) :
  F64.mul_int x z = Raise e -> value_or_overflow e.
Proof.
  unfold F64.mul_int. destruct (F64.of_int z) eqn:E; cbn [bind]; [discriminate|].
  intros [= <-]. eapply of_int_exn, E.
Qed.

Lemma Timestamp_new_exn (y mo d h mi s us : Z) (e : exn) :
  Timestamp_new y mo d h mi s us = Raise e -> value_or_overflow e.
Proof.
  unfold value_or_overflow, Timestamp_new.
  destruct (negb _); [intros [= <-]; auto|].
  destruct (valid_fields _ _ _ _ _ _ _); intros [= <-]; auto.
Qed.

(** X3. Whatever the string, the normalizer raises nothing but a
    [ValueError] or an [OverflowError]. *)
Theorem parse_matlab_time_exceptions (s : string) (e : exn) :
  parse_matlab_time s = Raise e -> e = ValueError \/ e = OverflowError.
Proof.
  change (parse_matlab_time s = Raise e -> value_or_overflow e).
  rewrite parse_matlab_time_eq.
  destruct (negb _); [discriminate|].
  destruct (mapM Num.py_float (tokens s)) as [arr|e'] eqn:Ea; cbn [bind].
  2:{ intros [= <-]. apply mapM_Raise in Ea. destruct Ea as (t & _ & Ht).
      left. exact (py_float_exn t e' Ht). }
  destruct arr as [|fy [|fmo [|fd [|fh [|fmi [|fsec [|? ?]]]]]]];
    try (intros [= <-]; left; reflexivity).
  repeat match goal with
  | |- bind ?c _ = Raise e -> _ =>
      let E := fresh "E" in
      destruct c eqn:E; cbn [bind];
      [|intros [= <-];
        first [ eapply to_int_exn; eassumption
              | eapply round_exn; eassumption
              | eapply sub_int_exn; eassumption
              | eapply mul_int_exn; eassumption
              | eapply Timestamp_new_exn; eassumption ]]
  end.
  discriminate.
Qed.

Lemma parse_matlab_time_exceptions_example :
  parse_matlab_time "[2015 3 18 9 31 inf]" = Raise OverflowError
  /\ (OverflowError = ValueError \/ OverflowError = OverflowError).
Proof.
  split; [vm_compute; reflexivity|].
  apply (parse_matlab_time_exceptions "[2015 3 18 9 31 inf]"). vm_compute. reflexivity.
Defined.

(** ** Padding *)

Lemma lstrip_by_all (p : ascii -> bool) (s : string) :
  all_chars p s = true -> Str.lstrip_by p s = EmptyString.
Proof.
  induction s as [|c s IH]; [reflexivity|].
  cbn [all_chars Str.lstrip_by]. intros H. apply andb_prop in H.
  destruct H as [-> H]. apply IH, H.
Qed.

Lemma rstrip_by_all (p : ascii -> bool) (s : string) :
  all_chars p s = true -> Str.rstrip_by p s = EmptyString.
Proof.
  induction s as [|c s IH]; [reflexivity|].
  cbn [all_chars Str.rstrip_by]. intros H. apply andb_prop in H.
  destruct H as [Hc H]. rewrite (IH H), Hc. reflexivity.
Qed.

Lemma lstrip_by_app_all (p : ascii -> bool) (pre s : string) :
  all_chars p pre = true ->
  Str.lstrip_by p (pre ++ s)%string = Str.lstrip_by p s.
Proof.
  induction pre as [|c pre IH]; [reflexivity|].
  cbn [all_chars String.append Str.lstrip_by]. intros H. apply andb_prop in H.
  destruct H as [-> H]. apply IH, H.
Qed.

Lemma rstrip_by_app_all (p : ascii -> bool) (s post : string) :
  all_chars p post = true ->
  Str.rstrip_by p (s ++ post)%string = Str.rstrip_by p s.
Proof.
  intros H. induction s as [|c s IH].
  - cbn [String.append]. rewrite (rstrip_by_all p post H). reflexivity.
  - cbn [String.append Str.rstrip_by]. rewrite IH. reflexivity.
Qed.

(** Characters that [strip] removes may be added at both ends. *)
Lemma strip_by_pad (p : ascii -> bool) (pre s post : string) :
  all_chars p pre = true -> all_chars p post = true ->
  Str.strip_by p (pre ++ s ++ post)%string = Str.strip_by p s.
Proof.
  intros Hpre Hpost. unfold Str.strip_by.
  rewrite (lstrip_by_app_all p pre _ Hpre).
  induction s as [|c s IH].
  - cbn [String.append]. rewrite (lstrip_by_all p post Hpost). reflexivity.
  - cbn [String.append Str.lstrip_by]. destruct (p c); [exact IH|].
    apply (rstrip_by_app_all p (String c s) post Hpost).
Qed.

(** X4. White space before and after the timestamp string changes
    nothing: the outcome is that of the string itself. *)
Theorem parse_matlab_time_padding (pre s post : string) :
  all_chars Str.isspace pre = true -> all_chars Str.isspace post = true ->
  parse_matlab_time (pre ++ s ++ post)%string = parse_matlab_time s.
Proof.
  intros Hpre Hpost.
  assert (Ht : tokens (pre ++ s ++ post)%string = tokens s).
  { unfold tokens, Str.strip. rewrite (strip_by_pad _ pre s post Hpre Hpost).
    reflexivity. }
  rewrite !parse_matlab_time_eq, Ht. reflexivity.
Qed.

Lemma parse_matlab_time_padding_example :
  parse_matlab_time ("  " ++ "[2015 3 18 9 31 40.25]" ++ " ")%string
  = parse_matlab_time "[2015 3 18 9 31 40.25]".
Proof.
  apply (parse_matlab_time_padding "  " "[2015 3 18 9 31 40.25]" " "); reflexivity.
Defined.

(* ===================================================================== *)
(** * More on the Impedance File Reader *)
(* ===================================================================== *)

(** X5. When the column holds an odd number of values that are not
    missing, the reader returns the real value of one of its cells: a
    measurement of the file, not a mean of two. *)
Theorem get_rectified_impedance_odd
    (fs : filesystem) (path : string) (df : list (string * list cell)) (col : list cell) :
  fs path = Some (Table df) ->
  column "Rectified_Impedance" df = Some col ->
  Forall cell_in_range col ->
  Nat.odd (List.length (filter (fun x => negb (F64.is_nan x)) (map real_value col))) = true ->
  exists c, In c col /\ F64.is_nan (real_value c) = false
            /\ get_rectified_impedance fs path = Return (real_value c).
Proof.
  intros Hfs Hcol Hall Hodd.
  rewrite (get_rectified_impedance_table fs path df col Hfs Hcol)
    by (eapply Forall_impl; [|exact Hall]; apply cell_in_range_coercible).
  destruct (nanmedian_spec (map real_value col)) as (HP & _ & _ & Hmid & _).
  cbv zeta in HP, Hmid.
  set (xs := sort_floats (filter (fun x => negb (F64.is_nan x)) (map real_value col))) in *.
  assert (Hlen : List.length xs
                 = List.length (filter (fun x => negb (F64.is_nan x)) (map real_value col)))
    by (apply Permutation_length, HP).
  rewrite <- Hlen in Hodd. rewrite (Hmid Hodd).
  assert (Hn : (List.length xs / 2 < List.length xs)%nat).
  { destruct (List.length xs) as [|n]; [discriminate|].
    apply Nat.div_lt; lia. }
  pose proof (nth_In xs F64.nan Hn) as Hin.
  apply (Permutation_in _ HP) in Hin. apply filter_In in Hin.
  destruct Hin as [Hin Hnn]. apply in_map_iff in Hin. destruct Hin as (c & Hc & Hcin).
  exists c. split; [exact Hcin|]. split.
  - rewrite Hc. apply negb_true_iff. exact Hnn.
  - rewrite Hc. reflexivity.
Qed.

Lemma get_rectified_impedance_odd_example :
  exists c, In c [CFloat (dec 1 0); CFloat (dec 3 0); CFloat (dec 5 0)]
            /\ F64.is_nan (real_value c) = false
            /\ get_rectified_impedance example_fs "cleaned_dataset/data/00001.csv"
               = Return (real_value c).
Proof.
  eapply (get_rectified_impedance_odd example_fs "cleaned_dataset/data/00001.csv");
    try reflexivity.
  repeat constructor.
Defined.

(* ===================================================================== *)
(** * The run as a whole *)
(* ===================================================================== *)







Lemma is_type_true (name : string) (r : row) :
  is_type name r = true <-> type r = CStr name.
Proof.
  unfold is_type. destruct (type r) as [x|z|b|s]; try (split; discriminate).
  rewrite String.eqb_eq. split; [intros ->; reflexivity|intros [= ->]; reflexivity].
Qed.


Lemma pipeline_Return
    (argsort : list Timestamp -> list nat) (fs : filesystem) (raw : list raw_row)
    (imp : list impedance_row) (dis : list discharge_row) :
  pipeline argsort fs raw = Return (imp, dis) ->
  exists rows imp0,
    normalize raw = Return rows
    /\ impedance_data argsort fs rows = Return imp0
    /\ imp = impedance_data_clean imp0
    /\ dis = discharge_data argsort rows.
Proof.
  unfold pipeline.
  destruct (normalize raw) as [rows|e]; cbn [bind]; [|discriminate].
  destruct (impedance_data argsort fs rows) as [imp0|e] eqn:Ei; cbn [bind];
    [|discriminate].
  intros [= <- <-]. exists rows, imp0. repeat split; (reflexivity || exact Ei).
Qed.

Section Run.

Variable argsort : list Timestamp -> list nat.
Hypothesis Hspec : argsort_spec argsort.

Lemma In_partition_sorted (name : string) (rows : list row) (r : row) :
  In r (partition_sorted argsort name rows) <-> In r rows /\ is_type name r = true.
Proof.
  rewrite <- filter_In.
  pose proof (partition_sorted_Permutation argsort Hspec name rows) as HP.
  split; intros H.
  - eapply Permutation_in; [exact HP|exact H].
  - eapply Permutation_in; [apply Permutation_sym, HP|exact H].
Qed.

Lemma In_rank_partition_fst (name : string) (rows : list row) (r : row) :
  In r (map fst (rank_partition argsort name rows)) <-> In r rows /\ is_type name r = true.
Proof. rewrite rank_partition_fst. apply In_partition_sorted. Qed.



(** X7. The cleaned impedance set holds rows of type impedance only, and
    the discharge set rows of type discharge only: a row of any other
    type reaches neither. *)
Theorem datasets_by_type
    (fs : filesystem) (raw : list raw_row)
    (imp : list impedance_row) (dis : list discharge_row) :
  pipeline argsort fs raw = Return (imp, dis) ->
  Forall (fun r => type (i_row r) = CStr "impedance") imp
  /\ Forall (fun d => type (d_row d) = CStr "discharge") dis.
Proof.
  intros H. apply pipeline_Return in H.
  destruct H as (rows & imp0 & _ & Hi & -> & ->). split.
  - rewrite Forall_forall. intros r Hr.
    apply impedance_data_clean_In in Hr. destruct Hr as [Hr _].
    apply impedance_data_ranked in Hi.
    assert (Hin : In (i_row r) (map fst (impedance_ranked argsort rows))).
    { rewrite <- Hi, map_map. cbn [fst].
      apply (in_map (fun r => i_row r)). exact Hr. }
    apply In_rank_partition_fst in Hin. apply is_type_true, Hin.
  - rewrite Forall_forall. intros d Hd. unfold discharge_data in Hd.
    apply in_map_iff in Hd. destruct Hd as (p & <- & Hp). cbn [d_row].
    assert (Hin : In (fst p) (map fst (rank_partition argsort "discharge" rows)))
      by (apply in_map; exact Hp).
    apply In_rank_partition_fst in Hin. apply is_type_true, Hin.
Qed.

End Run.


Lemma datasets_by_type_example :
  Forall (fun r => type (i_row r) = CStr "impedance") (fst example_result)
  /\ Forall (fun d => type (d_row d) = CStr "discharge") (snd example_result).
Proof.
  apply (datasets_by_type insertion_argsort insertion_argsort_spec
           example_fs example_raw).
  vm_compute. reflexivity.
Defined.

(* ===================================================================== *)
(** * The plots *)
(* ===================================================================== *)

Lemma seq_sorted (n : nat) : forall s, StronglySorted lt (seq s n).
Proof.
  induction n as [|n IH]; intros s; cbn [seq]; constructor; [apply IH|].
  rewrite Forall_forall. intros j Hj. apply in_seq in Hj. lia.
Qed.

Lemma ranks_sorted (n : nat) : StronglySorted Z.lt (ranks n).
Proof.
  unfold ranks. eapply StronglySorted_map; [|apply (seq_sorted n 1)].
  intros a b H. lia.
Qed.

Lemma sorted_map_filter {A : Type} (f : A -> Z) (p : A -> bool) (l : list A) :
  StronglySorted Z.lt (map f l) -> StronglySorted Z.lt (map f (filter p l)).
Proof.
  induction l as [|a l IH]; intros H; [constructor|].
  cbn [map] in H. inversion H as [|? ? Hs Hall]; subst.
  cbn [filter]. destruct (p a); [|apply IH, Hs].
  cbn [map]. constructor; [apply IH, Hs|].
  rewrite Forall_map in *. rewrite Forall_forall in *.
  intros b Hb. apply filter_In in Hb. apply Hall, Hb.
Qed.

(** In a list whose keys strictly increase, the key tells the element. *)
Lemma sorted_map_inj {A : Type} (f : A -> Z) (l : list A) :
  StronglySorted Z.lt (map f l) ->
  forall a b, In a l -> In b l -> f a = f b -> a = b.
Proof.
  induction l as [|c l IH]; intros H a b Ha Hb Hab; [contradiction|].
  cbn [map] in H. inversion H as [|? ? Hs Hall]; subst.
  rewrite Forall_map, Forall_forall in Hall.
  destruct Ha as [->|Ha], Hb as [->|Hb]; [reflexivity| | |].
  - specialize (Hall b Hb). lia.
  - specialize (Hall a Ha). lia.
  - apply (IH Hs a b Ha Hb Hab).
Qed.

Lemma filter_map_swap {A B : Type} (f : A -> B) (p : B -> bool) (l : list A) :
  filter p (map f l) = map f (filter (fun a => p (f a)) l).
Proof.
  induction l as [|a l IH]; [reflexivity|].
  cbn [map filter]. destruct (p (f a)); cbn [map]; rewrite IH; reflexivity.
Qed.

Lemma filter_filter {A : Type} (f g : A -> bool) (l : list A) :
  filter f (filter g l) = filter (fun a => g a && f a) l.
Proof.
  induction l as [|a l IH]; [reflexivity|].
  cbn [filter]. destruct (g a); cbn [filter andb]; [destruct (f a)|];
    rewrite IH; reflexivity.
Qed.

(** The ranks of [impedance_data], in row order, are 1, 2, 3, ... *)
Lemma impedance_data_cycle_numbers
    (argsort : list Timestamp -> list nat) (fs : filesystem) (rows : list row)
    (imp0 : list impedance_row) :
  impedance_data argsort fs rows = Return imp0 ->
  map impedance_cycle_number imp0
  = ranks (List.length (partition_sorted argsort "impedance" rows)).
Proof.
  intros H. apply impedance_data_ranked in H.
  transitivity (map snd (map (fun r => (i_row r, impedance_cycle_number r)) imp0)).
  - rewrite map_map. reflexivity.
  - rewrite H. unfold impedance_ranked, rank_partition.
    apply combine_snd. rewrite ranks_length. reflexivity.
Qed.

Lemma discharge_data_cycle_numbers
    (argsort : list Timestamp -> list nat) (rows : list row) :
  map cycle_number (discharge_data argsort rows)
  = ranks (List.length (partition_sorted argsort "discharge" rows)).
Proof.
  unfold discharge_data, rank_partition. rewrite map_map. cbn [cycle_number].
  apply combine_snd. rewrite ranks_length. reflexivity.
Qed.

(** The traces of [update_plots], one by one. *)
Lemma update_plots_traces (imp : list impedance_row) (dis : list discharge_row)
    (b : string) :
  let si := filter (fun r => has_battery b (i_row r)) imp in
  let sd := filter (fun d => has_battery b (d_row d)) dis in
  Go.data (fst (fst (update_plots imp dis b)))
    = [Go.mkScatter (map impedance_cycle_number si) (map (fun r => Re (i_row r)) si)
         "lines+markers" "Electrolyte Resistance (Re)" None;
       Go.mkScatter (map impedance_cycle_number si) (map (fun r => Rct (i_row r)) si)
         "lines+markers" "Charge Transfer Resistance (Rct)" (Some "y2")]
  /\ Go.data (snd (fst (update_plots imp dis b)))
    = [Go.mkScatter (map impedance_cycle_number si) (map Rectified_Impedance si)
         "lines+markers" "Rectified Impedance" None]
  /\ Go.data (snd (update_plots imp dis b))
    = [Go.mkScatter (map cycle_number sd) (map (fun d => Capacity (d_row d)) sd)
         "lines+markers" "Capacity" None].
Proof. repeat split; reflexivity. Qed.

Lemma impedance_traces_x (imp : list impedance_row) (dis : list discharge_row)
    (b : string) (t : Go.Scatter) :
  In t (Go.data (fst (fst (update_plots imp dis b)))
        ++ Go.data (snd (fst (update_plots imp dis b)))) ->
  Go.x t = map impedance_cycle_number (filter (fun r => has_battery b (i_row r)) imp).
Proof.
  destruct (update_plots_traces imp dis b) as (-> & -> & _).
  cbn [app In]. intros [<-|[<-|[<-|[]]]]; reflexivity.
Qed.

Lemma capacity_traces_x (imp : list impedance_row) (dis : list discharge_row)
    (b : string) (t : Go.Scatter) :
  In t (Go.data (snd (update_plots imp dis b))) ->
  Go.x t = map cycle_number (filter (fun d => has_battery b (d_row d)) dis).
Proof.
  destruct (update_plots_traces imp dis b) as (_ & _ & ->).
  cbn [In]. intros [<-|[]]; reflexivity.
Qed.

Lemma pipeline_cycle_numbers_sorted
    (argsort : list Timestamp -> list nat) (fs : filesystem) (raw : list raw_row)
    (imp : list impedance_row) (dis : list discharge_row) :
  pipeline argsort fs raw = Return (imp, dis) ->
  StronglySorted Z.lt (map impedance_cycle_number imp)
  /\ StronglySorted Z.lt (map cycle_number dis).
Proof.
  intros H. apply pipeline_Return in H.
  destruct H as (rows & imp0 & _ & Hi & -> & ->). split.
  - unfold impedance_data_clean. do 2 apply sorted_map_filter.
    rewrite (impedance_data_cycle_numbers _ _ _ _ Hi). apply ranks_sorted.
  - rewrite discharge_data_cycle_numbers. apply ranks_sorted.
Qed.

(** X8. In every trace of the three figures the cycle numbers on the x
    axis strictly increase: the points are drawn in chronological rank
    order, none twice. *)
Theorem plots_increasing
    (argsort : list Timestamp -> list nat) (fs : filesystem) (raw : list raw_row)
    (imp : list impedance_row) (dis : list discharge_row) (b : string) :
  pipeline argsort fs raw = Return (imp, dis) ->
  Forall (fun t => StronglySorted Z.lt (Go.x t)) (traces (update_plots imp dis b)).
Proof.
  intros H. destruct (pipeline_cycle_numbers_sorted _ _ _ _ _ H) as [Hi Hd].
  rewrite Forall_forall. intros t Ht. unfold traces in Ht.
  rewrite app_assoc in Ht. apply in_app_or in Ht. destruct Ht as [Ht|Ht].
  - rewrite (impedance_traces_x _ _ _ _ Ht). apply sorted_map_filter, Hi.
  - rewrite (capacity_traces_x _ _ _ _ Ht). apply sorted_map_filter, Hd.
Qed.

Lemma plots_increasing_example :
  map Go.x (traces (update_plots (fst example_series) (snd example_series) "B0005"))
  = [[1; 3]; [1; 3]; [1; 3]; [1; 3]]
  /\ Forall (fun t => StronglySorted Z.lt (Go.x t))
            (traces (update_plots (fst example_series) (snd example_series) "B0005")).
Proof.
  split; [vm_compute; reflexivity|].
  apply (plots_increasing insertion_argsort example_fs example_raw_series).
  vm_compute. reflexivity.
Defined.

(** X9. Every value drawn in the two impedance figures (Re, Rct and the
    rectified impedance) is present and passes the two tests of the
    Cleaning Filter, [> 0] and [< 10]. *)
Theorem plots_within_range
    (argsort : list Timestamp -> list nat) (fs : filesystem) (raw : list raw_row)
    (imp : list impedance_row) (dis : list discharge_row) (b : string) :
  pipeline argsort fs raw = Return (imp, dis) ->
  Forall (fun t =>
            Forall (fun v => F64.is_nan v = false
                             /\ gt_int v 0 = true /\ lt_int v 10 = true)
                   (Go.y t))
         (Go.data (fst (fst (update_plots imp dis b)))
          ++ Go.data (snd (fst (update_plots imp dis b)))).
Proof.
  intros H. apply pipeline_Return in H.
  destruct H as (rows & imp0 & _ & _ & -> & ->).
  assert (Hk : forall r,
             In r (filter (fun r => has_battery b (i_row r)) (impedance_data_clean imp0)) ->
             all_present r = true /\ in_range r = true).
  { intros r Hr. apply filter_In in Hr. destruct Hr as [Hr _].
    apply impedance_data_clean_In in Hr. tauto. }
  destruct (update_plots_traces (impedance_data_clean imp0)
              (discharge_data argsort rows) b) as (-> & -> & _).
  cbn [app]. repeat constructor; cbn [Go.y];
    rewrite Forall_map, Forall_forall; intros r Hr;
    destruct (Hk r Hr) as [Hp Hr']; unfold all_present, in_range in Hp, Hr';
    rewrite !andb_true_iff, !negb_true_iff in *; tauto.
Qed.

Lemma plots_within_range_example :
  Forall (fun t =>
            Forall (fun v => F64.is_nan v = false
                             /\ gt_int v 0 = true /\ lt_int v 10 = true)
                   (Go.y t))
         (Go.data (fst (fst (update_plots (fst example_result) (snd example_result) "B0005")))
          ++ Go.data (snd (fst (update_plots (fst example_result) (snd example_result) "B0005")))).
Proof.
  apply (plots_within_range insertion_argsort example_fs example_raw).
  vm_compute. reflexivity.
Defined.

(** X10. The cycle numbers are shared out between the batteries: a number
    on the x axis of an impedance figure of one battery is on that of no
    other battery, and likewise for the capacity figure. The numbers of
    one battery are thus not 1, 2, 3, ... when the table holds several
    batteries. *)
Theorem plots_disjoint
    (argsort : list Timestamp -> list nat) (fs : filesystem) (raw : list raw_row)
    (imp : list impedance_row) (dis : list discharge_row) (b1 b2 : string) :
  pipeline argsort fs raw = Return (imp, dis) ->
  b1 <> b2 ->
  (forall t1 t2 n,
     In t1 (Go.data (fst (fst (update_plots imp dis b1)))
            ++ Go.data (snd (fst (update_plots imp dis b1)))) ->
     In t2 (Go.data (fst (fst (update_plots imp dis b2)))
            ++ Go.data (snd (fst (update_plots imp dis b2)))) ->
     In n (Go.x t1) -> ~ In n (Go.x t2))
  /\ (forall t1 t2 n,
        In t1 (Go.data (snd (update_plots imp dis b1))) ->
        In t2 (Go.data (snd (update_plots imp dis b2))) ->
        In n (Go.x t1) -> ~ In n (Go.x t2)).
Proof.
  intros H Hb. destruct (pipeline_cycle_numbers_sorted _ _ _ _ _ H) as [Hi Hd].
  assert (Hne : forall r, has_battery b1 r = true -> has_battery b2 r = true -> False).
  { intros r. unfold has_battery. destruct (battery_id r); try discriminate.
    rewrite !String.eqb_eq. congruence. }
  split; intros t1 t2 n Ht1 Ht2 Hn1 Hn2.
  - rewrite (impedance_traces_x _ _ _ _ Ht1) in Hn1.
    rewrite (impedance_traces_x _ _ _ _ Ht2) in Hn2.
    apply in_map_iff in Hn1, Hn2.
    destruct Hn1 as (r1 & E1 & Hr1), Hn2 as (r2 & E2 & Hr2).
    apply filter_In in Hr1, Hr2. destruct Hr1 as [Hr1 Hb1], Hr2 as [Hr2 Hb2].
    assert (r1 = r2) by (apply (sorted_map_inj _ _ Hi); congruence).
    subst r2. exact (Hne _ Hb1 Hb2).
  - rewrite (capacity_traces_x _ _ _ _ Ht1) in Hn1.
    rewrite (capacity_traces_x _ _ _ _ Ht2) in Hn2.
    apply in_map_iff in Hn1, Hn2.
    destruct Hn1 as (r1 & E1 & Hr1), Hn2 as (r2 & E2 & Hr2).
    apply filter_In in Hr1, Hr2. destruct Hr1 as [Hr1 Hb1], Hr2 as [Hr2 Hb2].
    assert (r1 = r2) by (apply (sorted_map_inj _ _ Hd); congruence).
    subst r2. exact (Hne _ Hb1 Hb2).
Qed.

Lemma plots_disjoint_example :
  map Go.x (traces (update_plots (fst example_result) (snd example_result) "B0005"))
    = [[3]; [3]; [3]; [1]]
  /\ map Go.x (traces (update_plots (fst example_result) (snd example_result) "B0006"))
    = [[1]; [1]; [1]; [2]]
  /\ forall t1 t2 n,
       In t1 (Go.data (snd (update_plots (fst example_result) (snd example_result) "B0005"))) ->
       In t2 (Go.data (snd (update_plots (fst example_result) (snd example_result) "B0006"))) ->
       In n (Go.x t1) -> ~ In n (Go.x t2).
Proof.
  split; [vm_compute; reflexivity|]. split; [vm_compute; reflexivity|].
  refine (proj2 (plots_disjoint insertion_argsort example_fs example_raw
                   (fst example_result) (snd example_result) "B0005" "B0006" _ _)).
  - vm_compute. reflexivity.
  - discriminate.
Defined.

(** X11. The capacity figure of a battery draws one point for each
    discharge row of that battery in the table, none left out: its y
    values are the capacities of those rows, missing ones included. *)
Theorem capacity_plot_complete
    (argsort : list Timestamp -> list nat) (Hspec : argsort_spec argsort)
    (rows : list row) (imp : list impedance_row) (b : string) :
  exists t,
    Go.data (snd (update_plots imp (discharge_data argsort rows) b)) = [t]
    /\ Permutation (Go.y t)
         (map Capacity
              (filter (fun r => is_type "discharge" r && has_battery b r) rows))
    /\ List.length (Go.x t) = List.length (Go.y t).
Proof.
  destruct (update_plots_traces imp (discharge_data argsort rows) b) as (_ & _ & ->).
  eexists. split; [reflexivity|]. cbn [Go.x Go.y]. split.
  - unfold discharge_data. rewrite filter_map_swap, map_map. cbn [d_row].
    rewrite <- (map_map fst Capacity).
    rewrite <- (filter_map_swap fst (has_battery b)).
    rewrite rank_partition_fst. apply Permutation_map.
    rewrite <- filter_filter. apply filter_Permutation.
    apply partition_sorted_Permutation, Hspec.
  - rewrite !length_map. reflexivity.
Qed.

Lemma capacity_plot_complete_example :
  exists t,
    Go.data (snd (update_plots [] (discharge_data insertion_argsort example_metadata)
                    "B0005")) = [t]
    /\ Permutation (Go.y t)
         (map Capacity
              (filter (fun r => is_type "discharge" r && has_battery "B0005" r)
                      example_metadata))
    /\ List.length (Go.x t) = List.length (Go.y t).
Proof.
  exact (capacity_plot_complete insertion_argsort insertion_argsort_spec
           example_metadata [] "B0005").
Defined.

(* ===================================================================== *)
(** * An unknown battery *)
(* ===================================================================== *)

(** X12. A battery id that no row of either dataset carries gives the
    three figures with their four traces, each of them empty: nothing is
    raised. *)
Theorem plots_unknown_battery
    (imp : list impedance_row) (dis : list discharge_row) (b : string) :
  (forall r, In r imp -> battery_id (i_row r) <> CStr b) ->
  (forall d, In d dis -> battery_id (d_row d) <> CStr b) ->
  Forall (fun t => Go.x t = [] /\ Go.y t = []) (traces (update_plots imp dis b))
  /\ map Go.name (traces (update_plots imp dis b))
     = ["Electrolyte Resistance (Re)"%string; "Charge Transfer Resistance (Rct)"%string;
        "Rectified Impedance"%string; "Capacity"%string].
Proof.
  intros Hi Hd.
  assert (Ei : filter (fun r => has_battery b (i_row r)) imp = []).
  { apply filter_none, Forall_forall. intros r Hr. specialize (Hi r Hr).
    unfold has_battery. destruct (battery_id (i_row r)); try reflexivity.
    apply String.eqb_neq. congruence. }
  assert (Ed : filter (fun d => has_battery b (d_row d)) dis = []).
  { apply filter_none, Forall_forall. intros d Hd'. specialize (Hd d Hd').
    unfold has_battery. destruct (battery_id (d_row d)); try reflexivity.
    apply String.eqb_neq. congruence. }
  split; [|reflexivity].
  unfold traces. destruct (update_plots_traces imp dis b) as (-> & -> & ->).
  cbn zeta. rewrite Ei, Ed. repeat constructor.
Qed.

Lemma plots_unknown_battery_example :
  Forall (fun t => Go.x t = [] /\ Go.y t = [])
         (traces (update_plots (fst example_result) (snd example_result) "B0007"))
  /\ map Go.name (traces (update_plots (fst example_result) (snd example_result) "B0007"))
     = ["Electrolyte Resistance (Re)"%string; "Charge Transfer Resistance (Rct)"%string;
        "Rectified Impedance"%string; "Capacity"%string].
Proof.
  apply (plots_unknown_battery (fst example_result) (snd example_result) "B0007");
    [apply (proj1 (Forall_forall (fun r => battery_id (i_row r) <> CStr "B0007")
                     (fst example_result)))
    |apply (proj1 (Forall_forall (fun d => battery_id (d_row d) <> CStr "B0007")
                     (snd example_result)))];
    vm_compute; repeat constructor; discriminate.
Defined.

(* ===================================================================== *)
(** * The dropdown *)
(* ===================================================================== *)

Lemma SFeqb_refl (x : F64.float) : F64.is_nan x = false -> SFeqb x x = true.
Proof.
  destruct x as [s|s| |s m e]; try discriminate; intros _;
    unfold SFeqb, SFcompare.
  - reflexivity.
  - destruct s; reflexivity.
  - destruct s; rewrite Z.compare_refl, Pos.compare_refl; reflexivity.
Qed.

Lemma cell_same_float_refl (x : F64.float) : cell_same (CFloat x) (CFloat x) = true.
Proof.
  cbn [cell_same]. destruct (F64.is_nan x) eqn:E; [reflexivity|].
  rewrite (SFeqb_refl x E). reflexivity.
Qed.

Lemma cell_same_refl (c : cell) : cell_same c c = true.
Proof.
  destruct c as [x|z|b|s].
  - apply cell_same_float_refl.
  - apply Z.eqb_refl.
  - destruct b; reflexivity.
  - apply String.eqb_refl.
Qed.

(** What [unique_from] returns comes from the list and matches nothing
    already seen. *)
Lemma unique_from_In (l : list cell) : forall seen u,
  In u (unique_from seen l) -> In u l /\ existsb (cell_same u) seen = false.
Proof.
  induction l as [|c l IH]; intros seen u Hu; [contradiction|].
  cbn [unique_from] in Hu.
  destruct (existsb (cell_same c) seen) eqn:E.
  - destruct (IH _ _ Hu) as [H1 H2]. split; [right; exact H1|exact H2].
  - destruct Hu as [<-|Hu]; [split; [left; reflexivity|exact E]|].
    destruct (IH _ _ Hu) as [H1 H2]. split; [right; exact H1|].
    cbn [existsb] in H2. apply orb_false_elim in H2. apply H2.
Qed.

(** Every value of the list matches a value seen or a value returned. *)
Lemma unique_from_covers (l : list cell) : forall seen c,
  In c l ->
  existsb (cell_same c) seen = true
  \/ exists u, In u (unique_from seen l) /\ cell_same c u = true.
Proof.
  induction l as [|a l IH]; intros seen c Hc; [contradiction|].
  cbn [unique_from]. destruct Hc as [->|Hc].
  - destruct (existsb (cell_same c) seen) eqn:E; [left; reflexivity|].
    right. exists c. split; [left; reflexivity|apply cell_same_refl].
  - destruct (existsb (cell_same a) seen) eqn:E; [apply (IH _ _ Hc)|].
    destruct (IH (a :: seen) c Hc) as [H|(u & Hu & Hs)].
    + cbn [existsb] in H. apply orb_prop in H. destruct H as [H|H].
      * right. exists a. split; [left; reflexivity|exact H].
      * left. exact H.
    + right. exists u. split; [right; exact Hu|exact Hs].
Qed.

(** No value returned matches one returned before it. *)
Lemma unique_from_distinct (l : list cell) : forall seen,
  ForallOrdPairs (fun a b => cell_same b a = false) (unique_from seen l).
Proof.
  induction l as [|c l IH]; intros seen; [constructor|].
  cbn [unique_from]. destruct (existsb (cell_same c) seen); [apply IH|].
  constructor; [|apply IH].
  rewrite Forall_forall. intros u Hu. apply unique_from_In in Hu.
  destruct Hu as [_ Hu]. cbn [existsb] in Hu. apply orb_false_elim in Hu. apply Hu.
Qed.

Lemma ForallOrdPairs_map {A B : Type} (f : A -> B) (R : B -> B -> Prop) (l : list A) :
  ForallOrdPairs (fun a b => R (f a) (f b)) l -> ForallOrdPairs R (map f l).
Proof.
  induction 1 as [|a l Ha _ IH]; cbn [map]; constructor; [|exact IH].
  rewrite Forall_map. exact Ha.
Qed.

Lemma take_map_S {A : Type} (a : A) (l : list A) (ks : list nat) :
  take (map S ks) (a :: l) = take ks l.
Proof.
  induction ks as [|k ks IH]; [reflexivity|].
  cbn [map]. rewrite !take_cons, IH. reflexivity.
Qed.

(** [unique_from] by positions: it returns the values found at certain
    positions of the list, taken top down; every value of the list
    matches a value seen or one returned from its own position or from
    one above it. *)
Lemma unique_from_positions (l : list cell) : forall seen,
  exists ks,
    StronglySorted lt ks
    /\ Forall (fun k => (k < List.length l)%nat) ks
    /\ unique_from seen l = take ks l
    /\ (forall j c, nth_error l j = Some c ->
          existsb (cell_same c) seen = true
          \/ exists k u, In k ks /\ (k <= j)%nat
                         /\ nth_error l k = Some u /\ cell_same c u = true).
Proof.
  induction l as [|a l IH]; intros seen.
  - exists []. split; [constructor|]. split; [constructor|]. split; [reflexivity|].
    intros [|j] c H; discriminate H.
  - cbn [unique_from]. destruct (existsb (cell_same a) seen) eqn:E.
    + destruct (IH seen) as (ks & Hs & Hb & Hu & Hc).
      exists (map S ks). split; [|split; [|split]].
      * eapply StronglySorted_map; [|exact Hs]. intros i j Hij. lia.
      * rewrite Forall_map. eapply Forall_impl; [|exact Hb].
        intros k Hk. cbv beta in Hk. cbn [List.length]. lia.
      * rewrite take_map_S. exact Hu.
      * intros [|j] c Hj.
        -- injection Hj as <-. left. exact E.
        -- destruct (Hc j c Hj) as [H|(k & u & Hk & Hle & Hn & Hsame)];
             [left; exact H|].
           right. exists (S k), u. split; [apply in_map, Hk|].
           split; [lia|]. split; [exact Hn|exact Hsame].
    + destruct (IH (a :: seen)) as (ks & Hs & Hb & Hu & Hc).
      exists (O :: map S ks). split; [|split; [|split]].
      * constructor.
        -- eapply StronglySorted_map; [|exact Hs]. intros i j Hij. lia.
        -- rewrite Forall_map, Forall_forall. intros k _. lia.
      * constructor; [cbn [List.length]; lia|].
        rewrite Forall_map. eapply Forall_impl; [|exact Hb].
        intros k Hk. cbv beta in Hk. cbn [List.length]. lia.
      * rewrite take_cons, take_map_S, <- Hu. reflexivity.
      * intros [|j] c Hj.
        -- injection Hj as <-. right. exists O, a.
           split; [left; reflexivity|]. split; [lia|].
           split; [reflexivity|apply cell_same_refl].
        -- destruct (Hc j c Hj) as [H|(k & u & Hk & Hle & Hn & Hsame)].
           ++ cbn [existsb] in H. apply orb_prop in H. destruct H as [H|H].
              ** right. exists O, a. split; [left; reflexivity|].
                 split; [lia|]. split; [reflexivity|exact H].
              ** left. exact H.
           ++ right. exists (S k), u. split; [right; apply in_map, Hk|].
              split; [lia|]. split; [exact Hn|exact Hsame].
Qed.

(** X13. The dropdown offers every battery of the table once, in order of
    first appearance. The option values are the battery ids found at
    certain rows of the table, taken top down, and the id of every row
    matches the option that comes from that row or from a row above it;
    no option matches an earlier one; every option has its value for
    label. The default selection is the id of the first row, which is
    the first option; on an empty table there is none ([iloc[0]]
    raises). *)
Theorem dropdown_spec (metadata : list row) :
  (exists ks,
      StronglySorted lt ks
      /\ Forall (fun k => (k < List.length metadata)%nat) ks
      /\ map snd (dropdown_options metadata) = take ks (map battery_id metadata)
      /\ (forall j r, nth_error metadata j = Some r ->
            exists k r', In k ks /\ (k <= j)%nat /\ nth_error metadata k = Some r'
                         /\ cell_same (battery_id r) (battery_id r') = true))
  /\ (forall r, In r metadata ->
        exists o, In o (dropdown_options metadata)
                  /\ cell_same (battery_id r) (snd o) = true)
  /\ (forall o, In o (dropdown_options metadata) ->
        fst o = snd o /\ exists r, In r metadata /\ battery_id r = snd o)
  /\ ForallOrdPairs (fun o1 o2 => cell_same (snd o2) (snd o1) = false)
                    (dropdown_options metadata)
  /\ (dropdown_value metadata = None <-> metadata = [])
  /\ (forall v, dropdown_value metadata = Some v ->
        exists rest, dropdown_options metadata = (v, v) :: rest).
Proof.
  unfold dropdown_options, Series_unique. split; [|repeat split].
  - destruct (unique_from_positions (map battery_id metadata) [])
      as (ks & Hs & Hb & Hu & Hc).
    exists ks. split; [exact Hs|]. split; [|split].
    + rewrite length_map in Hb. exact Hb.
    + rewrite map_map. cbn [snd]. rewrite map_id. exact Hu.
    + intros j r Hj.
      destruct (Hc j (battery_id r)) as [H|(k & u & Hk & Hle & Hn & Hsame)].
      * rewrite nth_error_map, Hj. reflexivity.
      * discriminate H.
      * rewrite nth_error_map in Hn.
        destruct (nth_error metadata k) as [r'|] eqn:Er; [|discriminate Hn].
        injection Hn as <-. exists k, r'. auto.
  - intros r Hr.
    destruct (unique_from_covers (map battery_id metadata) [] (battery_id r)
                (in_map battery_id _ _ Hr)) as [H|(u & Hu & Hs)];
      [discriminate H|].
    exists (u, u). split; [|exact Hs].
    apply (in_map (fun b => (b, b))). exact Hu.
  - apply in_map_iff in H. destruct H as (u & <- & _). reflexivity.
  - apply in_map_iff in H. destruct H as (u & <- & Hu).
    apply unique_from_In in Hu. destruct Hu as [Hu _].
    apply in_map_iff in Hu. destruct Hu as (r & E & Hr).
    exists r. split; [exact Hr|exact E].
  - apply ForallOrdPairs_map. cbn [snd]. apply unique_from_distinct.
  - destruct metadata; [reflexivity|discriminate].
  - intros ->. reflexivity.
  - intros v Hv. destruct metadata as [|r rows]; [discriminate|].
    cbn [dropdown_value] in Hv. injection Hv as <-.
    cbn [map unique_from existsb]. eexists. reflexivity.
Qed.

Lemma dropdown_spec_example :
  map battery_id example_table
  = [CStr "B0005"; CStr "B0005"; CStr "B0006"; CStr "B0006"; CStr "B0005"; CStr "B0005"]
  /\ dropdown_options example_table
     = [(CStr "B0005", CStr "B0005"); (CStr "B0006", CStr "B0006")]
  /\ dropdown_value example_table = Some (CStr "B0005")
  /\ ForallOrdPairs (fun o1 o2 => cell_same (snd o2) (snd o1) = false)
                    (dropdown_options example_table)
  /\ exists ks,
       StronglySorted lt ks
       /\ map snd (dropdown_options example_table)
          = take ks (map battery_id example_table).
Proof.
  split; [vm_compute; reflexivity|].
  split; [vm_compute; reflexivity|].
  split; [vm_compute; reflexivity|].
  destruct (dropdown_spec example_table) as ((ks & Hs & _ & Hu & _) & _ & _ & Hd & _).
  split; [exact Hd|].
  exists ks. split; [exact Hs|exact Hu].
Defined.
